(** * accessgrid-py: a shallow embedding of [accessgrid/client.py]

    Python [str] values are lists of code points ([list Z]); Python
    [bytes] values are lists of octets ([list Z], each in [0, 255]).
    JSON-able Python objects are [pyval]; a Python [dict] is an
    insertion-ordered association list with unique keys.

    The HTTP layer ([requests]) is the environment: the client program
    is a tree of [Send] nodes ([prog]) that a server function answers. *)

From Stdlib Require Import ZArith List String Ascii Bool Lia.
Import ListNotations.
Open Scope Z_scope.
Set Warnings "-register-all".

(* ------------------------------------------------------------------ *)
(** ** Python strings, bytes and JSON-able values *)

Definition pystr := list Z.
Definition bytes := list Z.

(** A Coq string literal read as the Python [str] with the same
    (ASCII) characters. *)
Fixpoint py (s : string) : pystr :=
  match s with
  | EmptyString => []
  | String c r => Z.of_nat (nat_of_ascii c) :: py r
  end.

Fixpoint str_eqb (a b : pystr) : bool :=
  match a, b with
  | [], [] => true
  | x :: a', y :: b' => (x =? y) && str_eqb a' b'
  | _, _ => false
  end.

(** A Coq string literal in which every single quote stands for a double
    quote, for writing JSON texts. *)
Definition pyj (s : string) : pystr :=
  map (fun c => if c =? 39 then 34 else c) (py s).

(** Python objects that [json.dumps] accepts in the request bodies, and
    that [json.loads] produces.  A float is kept as its number text.  A
    tuple is written by [json.dumps] as a list and is represented here as
    the list it is written as; a dict key is a string.  Objects
    [json.dumps] refuses (a [TypeError] for a value it cannot serialize,
    a [ValueError] for a cycle, both raised on line 139 before the [try])
    and dicts with keys that are no strings are outside this model, and
    so outside every statement below. *)
Inductive pyval : Type :=
| PNone : pyval
| PBool : bool -> pyval
| PInt : Z -> pyval
| PFloat : pystr -> pyval
| PStr : pystr -> pyval
| PList : list pyval -> pyval
| PDict : list (pystr * pyval) -> pyval.

Definition pydict := list (pystr * pyval).

(** [d.get(k)]: [None] when the key is absent. *)
Fixpoint dict_get (d : pydict) (k : pystr) : option pyval :=
  match d with
  | [] => None
  | (k', v) :: r => if str_eqb k k' then Some v else dict_get r k
  end.

(** [d.get(k, default)] *)
Definition dict_get_default (d : pydict) (k : pystr) (default : pyval) : pyval :=
  match dict_get d k with Some v => v | None => default end.

(** [d[k] = v]: a new key goes last, an existing key keeps its place. *)
Fixpoint dict_setitem (d : pydict) (k : pystr) (v : pyval) : pydict :=
  match d with
  | [] => [(k, v)]
  | (k', v') :: r =>
      if str_eqb k k' then (k', v) :: r else (k', v') :: dict_setitem r k v
  end.

(** Truthiness of an optional dict ([if data]). *)
Definition dict_truthy (d : option pydict) : bool :=
  match d with Some (_ :: _) => true | _ => false end.

Definition str_truthy (s : pystr) : bool :=
  match s with [] => false | _ => true end.

(* ------------------------------------------------------------------ *)
(** ** [json.dumps] with its defaults
    ([ensure_ascii=True], item separator comma-space, key separator
    colon-space) *)

Definition hex_digit (n : Z) : Z := if n <? 10 then 48 + n else 87 + n.

(** ['{0:04x}'.format(n)] *)
Definition hex4 (n : Z) : pystr :=
  [hex_digit (Z.shiftr n 12 mod 16); hex_digit (Z.shiftr n 8 mod 16);
   hex_digit (Z.shiftr n 4 mod 16); hex_digit (n mod 16)].

(** [py_encode_basestring_ascii]'s replacement of one code point:
    backslash, double quote and everything outside space..tilde
    (so also DEL, 0x7f) is escaped. *)
Definition escape_char (c : Z) : pystr :=
  if c =? 92 then [92; 92]
  else if c =? 34 then [92; 34]
  else if (32 <=? c) && (c <=? 126) then [c]
  else if c =? 8 then [92; 98]
  else if c =? 12 then [92; 102]
  else if c =? 10 then [92; 110]
  else if c =? 13 then [92; 114]
  else if c =? 9 then [92; 116]
  else if c <? 65536 then 92 :: 117 :: hex4 c
  else
    let n := c - 65536 in
    let s1 := Z.lor 55296 (Z.land (Z.shiftr n 10) 1023) in
    let s2 := Z.lor 56320 (Z.land n 1023) in
    92 :: 117 :: hex4 s1 ++ 92 :: 117 :: hex4 s2.

Definition encode_basestring_ascii (s : pystr) : pystr :=
  34 :: flat_map escape_char s ++ [34].

(** [int.__repr__] *)
Fixpoint digits_of_nat (fuel : nat) (n : Z) (acc : pystr) : pystr :=
  match fuel with
  | O => acc
  | S f => if n <? 10 then (48 + n) :: acc
           else digits_of_nat f (n / 10) ((48 + n mod 10) :: acc)
  end.

Definition int_repr (z : Z) : pystr :=
  if z <? 0 then 45 :: digits_of_nat (Z.to_nat (Z.log2_up (- z) + 1)) (- z) []
  else digits_of_nat (Z.to_nat (Z.log2_up z + 1)) z [].

(** [sep.join(parts)] *)
Fixpoint join (sep : pystr) (parts : list pystr) : pystr :=
  match parts with
  | [] => []
  | [p] => p
  | p :: r => p ++ sep ++ join sep r
  end.

Definition comma_sep : pystr := py ", ".
Definition colon_sep : pystr := py ": ".

Fixpoint json_dumps (v : pyval) : pystr :=
  match v with
  | PNone => py "null"
  | PBool true => py "true"
  | PBool false => py "false"
  | PInt z => int_repr z
  | PFloat t => t
  | PStr s => encode_basestring_ascii s
  | PList l => [91] ++ join comma_sep (map json_dumps l) ++ [93]
  | PDict d =>
      [123] ++ join comma_sep
        (map (fun kv => encode_basestring_ascii (fst kv) ++ colon_sep ++ json_dumps (snd kv)) d)
      ++ [125]
  end.

(* ------------------------------------------------------------------ *)
(** ** [str.encode()] (UTF-8, strict) *)

(** One code point; a surrogate (or a value that is no code point)
    makes [str.encode()] raise [UnicodeEncodeError]. *)
Definition utf8_char (c : Z) : option bytes :=
  if c <? 0 then None
  else if c <? 128 then Some [c]
  else if c <? 2048 then
    Some [192 + Z.shiftr c 6; 128 + c mod 64]
  else if (55296 <=? c) && (c <=? 57343) then None
  else if c <? 65536 then
    Some [224 + Z.shiftr c 12; 128 + Z.shiftr c 6 mod 64; 128 + c mod 64]
  else if c <? 1114112 then
    Some [240 + Z.shiftr c 18; 128 + Z.shiftr c 12 mod 64;
          128 + Z.shiftr c 6 mod 64; 128 + c mod 64]
  else None.

Fixpoint str_encode (s : pystr) : option bytes :=
  match s with
  | [] => Some []
  | c :: r =>
      match utf8_char c, str_encode r with
      | Some b, Some rb => Some (b ++ rb)
      | _, _ => None
      end
  end.

(** [bytes.decode()] of bytes that are all ASCII: the same values. *)
Definition ascii_decode (b : bytes) : pystr := b.

(* ------------------------------------------------------------------ *)
(** ** [base64.b64encode] *)

Definition b64_char (n : Z) : Z :=
  if n <? 26 then 65 + n
  else if n <? 52 then 71 + n
  else if n <? 62 then n - 4
  else if n =? 62 then 43 else 47.

Fixpoint b64encode (b : bytes) : bytes :=
  match b with
  | [] => []
  | [x] =>
      [b64_char (Z.shiftr x 2); b64_char (Z.shiftl (x mod 4) 4); 61; 61]
  | [x; y] =>
      [b64_char (Z.shiftr x 2);
       b64_char (Z.shiftl (x mod 4) 4 + Z.shiftr y 4);
       b64_char (Z.shiftl (y mod 16) 2); 61]
  | x :: y :: z :: r =>
      [b64_char (Z.shiftr x 2);
       b64_char (Z.shiftl (x mod 4) 4 + Z.shiftr y 4);
       b64_char (Z.shiftl (y mod 16) 2 + Z.shiftr z 6);
       b64_char (z mod 64)] ++ b64encode r
  end.

(* ------------------------------------------------------------------ *)
(** ** [hashlib.sha256] (FIPS 180-4) *)

Module SHA256.

Definition mask32 : Z := 4294967295.
Definition add32 (a b : Z) : Z := (a + b) mod 4294967296.
Definition rotr (x n : Z) : Z :=
  Z.land (Z.lor (Z.shiftr x n) (Z.shiftl x (32 - n))) mask32.
Definition Ch (x y z : Z) : Z := Z.lxor (Z.land x y) (Z.land (Z.lxor x mask32) z).
Definition Maj (x y z : Z) : Z := Z.lxor (Z.lxor (Z.land x y) (Z.land x z)) (Z.land y z).
Definition Sigma0 (x : Z) : Z := Z.lxor (Z.lxor (rotr x 2) (rotr x 13)) (rotr x 22).
Definition Sigma1 (x : Z) : Z := Z.lxor (Z.lxor (rotr x 6) (rotr x 11)) (rotr x 25).
Definition sigma0 (x : Z) : Z := Z.lxor (Z.lxor (rotr x 7) (rotr x 18)) (Z.shiftr x 3).
Definition sigma1 (x : Z) : Z := Z.lxor (Z.lxor (rotr x 17) (rotr x 19)) (Z.shiftr x 10).

(** The first [n] primes, by trial division. *)
Definition is_prime (p : Z) : bool :=
  (2 <=? p) && forallb (fun d => negb (p mod d =? 0))
                 (map Z.of_nat (seq 2 (Z.to_nat (Z.sqrt p) - 1))).

Definition primes (n : nat) : list Z :=
  firstn n (filter is_prime (map Z.of_nat (seq 0 400))).

(** Integer cube root by bisection ([lo ^ 3 <= x < hi ^ 3]). *)
Fixpoint cbrt_search (fuel : nat) (lo hi x : Z) : Z :=
  match fuel with
  | O => lo
  | S f =>
      if hi - lo <=? 1 then lo
      else let mid := (lo + hi) / 2 in
           if mid * mid * mid <=? x then cbrt_search f mid hi x else cbrt_search f lo mid x
  end.

Definition icbrt (x : Z) : Z := cbrt_search 100 0 (2 ^ 40) x.

(** Round constants: the first 32 fraction bits of the cube roots of the
    first 64 primes (FIPS 180-4, 4.2.2). *)
Definition K : list Z :=
  Eval vm_compute in map (fun p => icbrt (p * 2 ^ 96) mod 2 ^ 32) (primes 64).

(** Initial hash value: the first 32 fraction bits of the square roots
    of the first 8 primes (FIPS 180-4, 5.3.3). *)
Definition H0 : list Z :=
  Eval vm_compute in map (fun p => Z.sqrt (p * 2 ^ 64) mod 2 ^ 32) (primes 8).

(** Big-endian 32-bit words of a 64-byte block. *)
Fixpoint words (b : bytes) : list Z :=
  match b with
  | a :: c :: d :: e :: r =>
      (Z.shiftl a 24 + Z.shiftl c 16 + Z.shiftl d 8 + e) :: words r
  | _ => []
  end.

(** The message schedule, built from the last 16 words (newest first). *)
Fixpoint schedule (n : nat) (rev_w : list Z) : list Z :=
  match n with
  | O => rev rev_w
  | S n' =>
      let w t := nth t rev_w 0 in
      schedule n' (add32 (add32 (sigma1 (w 1%nat)) (w 6%nat))
                         (add32 (sigma0 (w 14%nat)) (w 15%nat)) :: rev_w)
  end.

Definition round (st : list Z) (kw : Z * Z) : list Z :=
  match st with
  | [a; b; c; d; e; f; g; h] =>
      let t1 := add32 (add32 (add32 h (Sigma1 e)) (add32 (Ch e f g) (fst kw))) (snd kw) in
      let t2 := add32 (Sigma0 a) (Maj a b c) in
      [add32 t1 t2; a; b; c; add32 d t1; e; f; g]
  | _ => st
  end.

Definition compress (hs : list Z) (block : bytes) : list Z :=
  let w := schedule 48 (rev (words block)) in
  let st := fold_left round (combine K w) hs in
  map (fun p => add32 (fst p) (snd p)) (combine hs st).

Definition be_bytes (n : nat) (x : Z) : bytes :=
  map (fun i => Z.shiftr x (8 * Z.of_nat (n - 1 - i)) mod 256) (seq 0 n).

Definition pad (m : bytes) : bytes :=
  let l := Z.of_nat (List.length m) in
  m ++ [128] ++ repeat 0 (Z.to_nat ((55 - l) mod 64)) ++ be_bytes 8 (8 * l).

Fixpoint blocks (fuel : nat) (m : bytes) : list bytes :=
  match fuel with
  | O => []
  | S f =>
      match m with
      | [] => []
      | _ => firstn 64 m :: blocks f (skipn 64 m)
      end
  end.

Definition hash (m : bytes) : bytes :=
  let p := pad m in
  flat_map (be_bytes 4) (fold_left compress (blocks (List.length p) p) H0).

End SHA256.

(** [hexdigest()]: two lowercase hex digits per byte. *)
Definition hexdigest (b : bytes) : pystr :=
  flat_map (fun x => [hex_digit (Z.shiftr x 4); hex_digit (x mod 16)]) b.

(* ------------------------------------------------------------------ *)
(** ** [hmac.new(key, msg, hashlib.sha256)] (RFC 2104, block size 64) *)

Definition block_size : nat := 64.

(** The key block: a key longer than a block is hashed first, then the
    key is padded with zero bytes to the block size. *)
Definition key_block (key : bytes) : bytes :=
  let k := if Nat.ltb block_size (List.length key) then SHA256.hash key else key in
  k ++ repeat 0 (block_size - List.length k).

Definition hmac_sha256 (key msg : bytes) : bytes :=
  let k0 := key_block key in
  SHA256.hash (map (Z.lxor 92) k0 ++ SHA256.hash (map (Z.lxor 54) k0 ++ msg)).

(* ------------------------------------------------------------------ *)
(** ** [json.loads] (the scanner of the [json] module, strict mode)

    [None] is a [JSONDecodeError].  The scanner runs on a fuel bound
    that each pair of nested calls consumes at most one unit of per
    character read, so [json_loads] gives it twice the input length. *)

Fixpoint skip_ws (s : list Z) : list Z :=
  match s with
  | c :: r => if (c =? 32) || (c =? 9) || (c =? 10) || (c =? 13) then skip_ws r else s
  | [] => []
  end.

Definition is_digit (c : Z) : bool := (48 <=? c) && (c <=? 57).

Definition hex_val (c : Z) : option Z :=
  if is_digit c then Some (c - 48)
  else if (97 <=? c) && (c <=? 102) then Some (c - 87)
  else if (65 <=? c) && (c <=? 70) then Some (c - 55)
  else None.

(** [_decode_uXXXX] *)
Definition hex4_val (a b c d : Z) : option Z :=
  match hex_val a, hex_val b, hex_val c, hex_val d with
  | Some x, Some y, Some z, Some w => Some (x * 4096 + y * 256 + z * 16 + w)
  | _, _, _, _ => None
  end.

Definition simple_escape (e : Z) : option Z :=
  if e =? 34 then Some 34 else if e =? 92 then Some 92
  else if e =? 47 then Some 47 else if e =? 98 then Some 8
  else if e =? 102 then Some 12 else if e =? 110 then Some 10
  else if e =? 114 then Some 13 else if e =? 116 then Some 9
  else None.

(** [scanstring]: the text after the opening quote; the decoded string
    (built reversed in [acc]) and the text after the closing quote. *)
Fixpoint scanstring (s : list Z) (acc : pystr) {struct s} : option (pystr * list Z) :=
  match s with
  | [] => None
  | c :: r =>
      if c =? 34 then Some (rev acc, r)
      else if c =? 92 then
        match r with
        | 117 :: h1 :: h2 :: h3 :: h4 :: r' =>
            match hex4_val h1 h2 h3 h4 with
            | None => None
            | Some u =>
                if (55296 <=? u) && (u <=? 56319) then
                  match r' with
                  | 92 :: 117 :: g1 :: g2 :: g3 :: g4 :: r'' =>
                      match hex4_val g1 g2 g3 g4 with
                      | None => None
                      | Some u2 =>
                          if (56320 <=? u2) && (u2 <=? 57343) then
                            scanstring r''
                              ((65536 + Z.shiftl (u - 55296) 10 + (u2 - 56320)) :: acc)
                          else scanstring r' (u :: acc)
                      end
                  | _ => scanstring r' (u :: acc)
                  end
                else scanstring r' (u :: acc)
            end
        | e :: r' =>
            match simple_escape e with
            | Some d => scanstring r' (d :: acc)
            | None => None
            end
        | [] => None
        end
      else if c <? 32 then None
      else scanstring r (c :: acc)
  end.

Fixpoint span_digits (s : list Z) : pystr * list Z :=
  match s with
  | c :: r => if is_digit c then let (ds, r') := span_digits r in (c :: ds, r') else ([], s)
  | [] => ([], [])
  end.

Definition digits_value (ds : pystr) : Z :=
  fold_left (fun acc d => acc * 10 + (d - 48)) ds 0.

(** The fraction part [(\.\d+)?]. *)
Definition match_frac (s : list Z) : pystr * list Z :=
  match s with
  | 46 :: d :: r => if is_digit d then let (ds, r') := span_digits (d :: r) in (46 :: ds, r')
                    else ([], s)
  | _ => ([], s)
  end.

(** The exponent part [([eE][-+]?\d+)?]. *)
Definition match_exp (s : list Z) : pystr * list Z :=
  match s with
  | e :: r =>
      if (e =? 101) || (e =? 69) then
        let (sg, r1) := match r with
                        | c :: r' => if (c =? 43) || (c =? 45) then ([c], r') else ([], r)
                        | [] => ([], r)
                        end in
        match span_digits r1 with
        | ([], _) => ([], s)
        | (ds, r2) => (e :: sg ++ ds, r2)
        end
      else ([], s)
  | [] => ([], s)
  end.

(** [_match_number]: an [int] or (as its number text) a [float]. *)
Definition match_number (s : list Z) : option (pyval * list Z) :=
  let (sign, s1) := match s with 45 :: r => ([45], r) | _ => ([], s) end in
  let int_part :=
    match s1 with
    | 48 :: r => Some ([48], r)
    | c :: r => if is_digit c then let (ds, r') := span_digits r in Some (c :: ds, r') else None
    | [] => None
    end in
  match int_part with
  | None => None
  | Some (ip, r2) =>
      let (fr, r3) := match_frac r2 in
      let (ex, r4) := match_exp r3 in
      match fr, ex with
      | [], [] =>
          let n := digits_value ip in
          Some (PInt (match sign with [] => n | _ => - n end), r4)
      | _, _ => Some (PFloat (sign ++ ip ++ fr ++ ex), r4)
      end
  end.

Fixpoint starts_with (p s : list Z) : bool :=
  match p, s with
  | [], _ => true
  | x :: p', y :: s' => (x =? y) && starts_with p' s'
  | _, [] => false
  end.

Fixpoint scan_once (fuel : nat) (s : list Z) : option (pyval * list Z) :=
  match fuel with
  | O => None
  | S f =>
      match s with
      | 34 :: r =>
          match scanstring r [] with
          | Some (str, r') => Some (PStr str, r')
          | None => None
          end
      | 123 :: r =>
          match skip_ws r with
          | 125 :: r' => Some (PDict [], r')
          | r' => object_members f r' []
          end
      | 91 :: r =>
          match skip_ws r with
          | 93 :: r' => Some (PList [], r')
          | r' => array_items f r' []
          end
      | _ =>
          if starts_with (py "null") s then Some (PNone, skipn 4 s)
          else if starts_with (py "true") s then Some (PBool true, skipn 4 s)
          else if starts_with (py "false") s then Some (PBool false, skipn 5 s)
          else if starts_with (py "NaN") s then Some (PFloat (py "NaN"), skipn 3 s)
          else if starts_with (py "Infinity") s then Some (PFloat (py "Infinity"), skipn 8 s)
          else if starts_with (py "-Infinity") s then Some (PFloat (py "-Infinity"), skipn 9 s)
          else match_number s
      end
  end
with object_members (fuel : nat) (s : list Z) (acc : pydict) : option (pyval * list Z) :=
  match fuel with
  | O => None
  | S f =>
      match s with
      | 34 :: r =>
          match scanstring r [] with
          | None => None
          | Some (key, r1) =>
              match skip_ws r1 with
              | 58 :: r2 =>
                  match scan_once f (skip_ws r2) with
                  | None => None
                  | Some (v, r3) =>
                      let acc' := dict_setitem acc key v in
                      match skip_ws r3 with
                      | 125 :: r4 => Some (PDict acc', r4)
                      | 44 :: r4 => object_members f (skip_ws r4) acc'
                      | _ => None
                      end
                  end
              | _ => None
              end
          end
      | _ => None
      end
  end
with array_items (fuel : nat) (s : list Z) (acc : list pyval) : option (pyval * list Z) :=
  match fuel with
  | O => None
  | S f =>
      match scan_once f s with
      | None => None
      | Some (v, r1) =>
          match skip_ws r1 with
          | 93 :: r2 => Some (PList (rev (v :: acc)), r2)
          | 44 :: r2 => array_items f (skip_ws r2) (v :: acc)
          | _ => None
          end
      end
  end.

(** [json.loads(s)]: leading and trailing white space, then one value. *)
Definition json_loads (s : pystr) : option pyval :=
  let s1 := skip_ws s in
  match scan_once (S (2 * List.length s1)) s1 with
  | Some (v, r) => match skip_ws r with [] => Some v | _ => None end
  | None => None
  end.

(* ------------------------------------------------------------------ *)
(** ** Exceptions *)

(** The [requests.exceptions.RequestException]s the client catches. *)
Inductive request_exception : Type :=
(** raised by the transport ([ConnectionError], [Timeout], [SSLError],
    ...), with its [str] *)
| TransportFailure : pystr -> request_exception
(** [requests.exceptions.JSONDecodeError] from [response.json()] on the
    given text (a [RequestException] since requests 2.27) *)
| JSONDecodeError : pystr -> request_exception.

(** The argument of [AccessGridError(...)]. *)
Inductive message : Type :=
| Text : pystr -> message                       (** a fixed text *)
| ApiFailed : pyval -> message                  (** [f"API request failed: {error_message}"] *)
| RequestFailed : request_exception -> message. (** [f"Request failed: {str(e)}"] *)

Inductive exn : Type :=
| ValueError : pystr -> exn
| UnicodeEncodeError : exn
| AttributeError : pystr -> exn
| AccessGridError : message -> exn
| AuthenticationError : pystr -> exn.

(** The classes of an exception, most derived first
    ([AuthenticationError] subclasses [AccessGridError]). *)
Definition exn_classes (e : exn) : list string :=
  match e with
  | ValueError _ => ["ValueError"; "Exception"; "BaseException"]
  | UnicodeEncodeError =>
      ["UnicodeEncodeError"; "UnicodeError"; "ValueError"; "Exception"; "BaseException"]
  | AttributeError _ => ["AttributeError"; "Exception"; "BaseException"]
  | AccessGridError _ => ["AccessGridError"; "Exception"; "BaseException"]
  | AuthenticationError _ =>
      ["AuthenticationError"; "AccessGridError"; "Exception"; "BaseException"]
  end%string.

Definition isinstance (e : exn) (cls : string) : bool :=
  existsb (String.eqb cls) (exn_classes e).

(** [type(v).__name__] *)
Definition type_name (v : pyval) : pystr :=
  match v with
  | PNone => py "NoneType" | PBool _ => py "bool" | PInt _ => py "int"
  | PFloat _ => py "float" | PStr _ => py "str" | PList _ => py "list"
  | PDict _ => py "dict"
  end.

Definition no_get (v : pyval) : exn :=
  AttributeError ([39] ++ type_name v ++ [39] ++ py " object has no attribute " ++ [39] ++ py "get" ++ [39]).

(* ------------------------------------------------------------------ *)
(** ** HTTP requests as a program against a server *)

(** The arguments of [requests.request(method=..., url=..., headers=...,
    json=..., params=...)]. *)
Record http_request : Type := mk_request {
  method : pystr;
  url : pystr;
  headers : list (pystr * pystr);
  json : option pyval;
  params : option pydict
}.

Record response : Type := mk_response {
  status_code : Z;
  text : pystr
}.

Inductive transport_result : Type :=
| Response : response -> transport_result
| TransportError : pystr -> transport_result.

(** A client computation: a value, a raised exception, or a request
    whose outcome the continuation receives. *)
Inductive prog (A : Type) : Type :=
| Ret : A -> prog A
| Raise : exn -> prog A
| Send : http_request -> (transport_result -> prog A) -> prog A.

Arguments Ret {A} _.
Arguments Raise {A} _.
Arguments Send {A} _ _.

Fixpoint bind {A B : Type} (p : prog A) (f : A -> prog B) : prog B :=
  match p with
  | Ret a => f a
  | Raise e => Raise e
  | Send rq k => Send rq (fun t => bind (k t) f)
  end.

Notation "x <- p ;; q" := (bind p (fun x => q))
  (at level 61, p at next level, right associativity).

(** Running a computation against a server: the requests sent, in
    order, and the returned value or raised exception. *)
Fixpoint run {A : Type} (server : http_request -> transport_result) (p : prog A)
  : list http_request * (A + exn) :=
  match p with
  | Ret a => ([], inl a)
  | Raise e => ([], inr e)
  | Send rq k => let (sent, r) := run server (k (server rq)) in (rq :: sent, r)
  end.

(** [headers[name]] *)
Fixpoint header_get (h : list (pystr * pystr)) (name : pystr) : option pystr :=
  match h with
  | [] => None
  | (k, v) :: r => if str_eqb name k then Some v else header_get r name
  end.

(** The body text [requests] sends for [json=obj]
    ([complexjson.dumps(obj)], default separators); none for [json=None]. *)
Definition wire_body (rq : http_request) : option pystr :=
  option_map json_dumps (json rq).

(* ------------------------------------------------------------------ *)
(** ** The client ([class AccessGrid]) *)

Record AccessGrid : Type := mk_AccessGrid {
  account_id : pystr;
  secret_key : pystr;
  base_url : pystr
}.

Definition default_base_url : pystr := py "https://api.accessgrid.com".

(** [s.lstrip('/')] *)
Fixpoint lstrip_slash (s : pystr) : pystr :=
  match s with
  | c :: r => if c =? 47 then lstrip_slash r else s
  | [] => []
  end.

(** [s.rstrip('/')] *)
Definition rstrip_slash (s : pystr) : pystr := rev (lstrip_slash (rev s)).

(** [AccessGrid.__init__]; [None] stands for a Python [None] argument.
    The sub-clients [access_cards] and [console] are [AccessCards(self)]
    and [Console(self)], see below. *)
Definition AccessGrid_init (account_id secret_key : option pystr) (base_url : pystr)
  : AccessGrid + exn :=
  match account_id with
  | None | Some [] => inr (ValueError (py "Account ID is required"))
  | Some a =>
      match secret_key with
      | None | Some [] => inr (ValueError (py "Secret Key is required"))
      | Some s => inl (mk_AccessGrid a s (rstrip_slash base_url))
      end
  end.

(** [AccessGrid._generate_signature] *)
Definition _generate_signature (self : AccessGrid) (payload : pystr) : prog pystr :=
  match str_encode payload with
  | None => Raise UnicodeEncodeError
  | Some pb =>
      let encoded_payload := ascii_decode (b64encode pb) in
      match str_encode (secret_key self), str_encode encoded_payload with
      | Some k, Some m => Ret (hexdigest (hmac_sha256 k m))
      | _, _ => Raise UnicodeEncodeError
      end
  end.

(** [json.dumps(data) if data else ""], for data of the model
    (see [pyval]): [json.dumps] returns a text for all of it. *)
Definition payload_of (data : option pydict) : pystr :=
  match data with
  | Some ((_ :: _) as d) => json_dumps (PDict d)
  | _ => []
  end.

(** [data if data else None] *)
Definition json_arg (data : option pydict) : option pyval :=
  match data with
  | Some ((_ :: _) as d) => Some (PDict d)
  | _ => None
  end.

(** [response.json()], its decode error being a [RequestException]. *)
Definition response_json (r : response) : prog pyval :=
  match json_loads (text r) with
  | Some v => Ret v
  | None => Raise (AccessGridError (RequestFailed (JSONDecodeError (text r))))
  end.

(** The body of the [try] after [requests.request] returned. *)
Definition handle_response (r : response) : prog pyval :=
  let s := status_code r in
  if s =? 401 then Raise (AuthenticationError (py "Invalid credentials"))
  else if s =? 402 then Raise (AccessGridError (Text (py "Insufficient account balance")))
  else if negb ((200 <=? s) && (s <? 300)) then
    error_data <- (if str_truthy (text r) then response_json r else Ret (PDict [])) ;;
    match error_data with
    | PDict d => Raise (AccessGridError (ApiFailed (dict_get_default d (py "message") (PStr (text r)))))
    | v => Raise (no_get v)
    end
  else response_json r.

Definition handle_transport (t : transport_result) : prog pyval :=
  match t with
  | Response r => handle_response r
  | TransportError d => Raise (AccessGridError (RequestFailed (TransportFailure d)))
  end.

(* ------------------------------------------------------------------ *)
(** ** Result entities and sub-clients *)

(** [data.get(key)] *)
Definition data_get (d : pydict) (key : string) : pyval := dict_get_default d (py key) PNone.

(** [class AccessCard]: the attributes hold [data.get(key)], [None] for a
    missing key. *)
Module AccessCard.
Record t : Type := mk {
  _client : AccessGrid;
  id : pyval;
  url : pyval;
  state : pyval;
  full_name : pyval;
  expiration_date : pyval
}.

(** [AccessCard(client, data)]; [data.get] on a non-dict raises. *)
Definition init (client : AccessGrid) (data : pyval) : prog t :=
  match data with
  | PDict d =>
      Ret (mk client (data_get d "id") (data_get d "install_url") (data_get d "state")
              (data_get d "full_name") (data_get d "expiration_date"))
  | v => Raise (no_get v)
  end.
End AccessCard.

(** [class Template] *)
Module Template.
Record t : Type := mk {
  _client : AccessGrid;
  id : pyval;
  name : pyval;
  platform : pyval;
  use_case : pyval;
  protocol : pyval;
  created_at : pyval;
  last_published_at : pyval;
  issued_keys_count : pyval;
  active_keys_count : pyval;
  allowed_device_counts : pyval;
  support_settings : pyval;
  terms_settings : pyval;
  style_settings : pyval
}.

Definition init (client : AccessGrid) (data : pyval) : prog t :=
  match data with
  | PDict d =>
      Ret (mk client (data_get d "id") (data_get d "name") (data_get d "platform") (data_get d "use_case")
              (data_get d "protocol") (data_get d "created_at") (data_get d "last_published_at")
              (data_get d "issued_keys_count") (data_get d "active_keys_count")
              (data_get d "allowed_device_counts") (data_get d "support_settings")
              (data_get d "terms_settings") (data_get d "style_settings"))
  | v => Raise (no_get v)
  end.
End Template.

(** [class AccessCards] and [class Console] hold the client. *)
Module AccessCards.
Record t : Type := mk { _client : AccessGrid }.
End AccessCards.

Module Console.
Record t : Type := mk { _client : AccessGrid }.
End Console.

(** [self.access_cards = AccessCards(self)], [self.console = Console(self)] *)
Definition access_cards (self : AccessGrid) : AccessCards.t := AccessCards.mk self.
Definition console (self : AccessGrid) : Console.t := Console.mk self.

Section Client.

(** The module-level [__version__] (package metadata or [unknown]). *)
Variable __version__ : pystr.

Definition user_agent : pystr := py "accessgrid.py @ v" ++ __version__.

(** [AccessGrid._make_request] *)
Definition _make_request (self : AccessGrid) (method : pystr) (endpoint : pystr)
  (data : option pydict) (params : option pydict) : prog pyval :=
  let url := base_url self ++ endpoint in
  let payload := payload_of data in
  sig <- _generate_signature self payload ;;
  let headers := [(py "X-ACCT-ID", account_id self);
                  (py "X-PAYLOAD-SIG", sig);
                  (py "Content-Type", py "application/json");
                  (py "User-Agent", user_agent)] in
  Send (mk_request method url headers (json_arg data) params) handle_transport.

Definition _get (self : AccessGrid) (endpoint : pystr) (params : option pydict) : prog pyval :=
  _make_request self (py "GET") endpoint None params.

Definition _post (self : AccessGrid) (endpoint : pystr) (data : pydict) : prog pyval :=
  _make_request self (py "POST") endpoint (Some data) None.

Definition _put (self : AccessGrid) (endpoint : pystr) (data : pydict) : prog pyval :=
  _make_request self (py "PUT") endpoint (Some data) None.

Definition _patch (self : AccessGrid) (endpoint : pystr) (data : pydict) : prog pyval :=
  _make_request self (py "PATCH") endpoint (Some data) None.

(** *** [AccessCards] *)

Definition AccessCards_issue (self : AccessCards.t) (kwargs : pydict) : prog AccessCard.t :=
  response <- _post (AccessCards._client self) (py "/v1/key-cards") kwargs ;;
  AccessCard.init (AccessCards._client self) response.

Definition AccessCards_provision (self : AccessCards.t) (kwargs : pydict) : prog AccessCard.t :=
  AccessCards_issue self kwargs.

Definition AccessCards_update (self : AccessCards.t) (card_id : pystr) (kwargs : pydict)
  : prog AccessCard.t :=
  response <- _put (AccessCards._client self) (py "/v1/key-cards/" ++ card_id) kwargs ;;
  AccessCard.init (AccessCards._client self) response.

Definition AccessCards_manage (self : AccessCards.t) (card_id action : pystr)
  : prog AccessCard.t :=
  response <- _post (AccessCards._client self) (py "/v1/key-cards/" ++ card_id ++ py "/" ++ action) [] ;;
  AccessCard.init (AccessCards._client self) response.

Definition AccessCards_suspend (self : AccessCards.t) (card_id : pystr) : prog AccessCard.t :=
  AccessCards_manage self card_id (py "suspend").

Definition AccessCards_resume (self : AccessCards.t) (card_id : pystr) : prog AccessCard.t :=
  AccessCards_manage self card_id (py "resume").

Definition AccessCards_unlink (self : AccessCards.t) (card_id : pystr) : prog AccessCard.t :=
  AccessCards_manage self card_id (py "unlink").

(** *** [Console] *)

Definition Console_create_template (self : Console.t) (kwargs : pydict) : prog Template.t :=
  response <- _post (Console._client self) (py "/v1/console/card-templates") kwargs ;;
  Template.init (Console._client self) response.

Definition Console_update_template (self : Console.t) (template_id : pystr) (kwargs : pydict)
  : prog Template.t :=
  response <- _put (Console._client self) (py "/v1/console/card-templates/" ++ template_id) kwargs ;;
  Template.init (Console._client self) response.

Definition Console_read_template (self : Console.t) (template_id : pystr) : prog Template.t :=
  response <- _get (Console._client self) (py "/v1/console/card-templates/" ++ template_id) None ;;
  Template.init (Console._client self) response.

Definition Console_get_logs (self : Console.t) (template_id : pystr) (kwargs : pydict)
  : prog pyval :=
  _get (Console._client self) (py "/v1/console/card-templates/" ++ template_id ++ py "/logs")
    (Some kwargs).

End Client.

(* ------------------------------------------------------------------ *)
(** ** Fixtures *)

Definition acct_1 : AccessGrid := mk_AccessGrid (py "acct_1") (py "s3cret") default_base_url.

Definition jane : pydict :=
  [(py "full_name", PStr (py "Jane Doe")); (py "expiration_date", PStr (py "2026-01-01"))].

Definition jane_json : pystr :=
  pyj "{'full_name': 'Jane Doe', 'expiration_date': '2026-01-01'}".

Definition answer (status : Z) (body : pystr) : http_request -> transport_result :=
  fun _ => Response (mk_response status body).

(* ------------------------------------------------------------------ *)
(** ** Reading the results *)

(** [str()] of an [AccessGridError]'s message, where the model fixes it. *)
Definition message_str (m : message) : option pystr :=
  match m with
  | Text s => Some s
  | ApiFailed (PStr s) => Some (py "API request failed: " ++ s)
  | ApiFailed (PInt z) => Some (py "API request failed: " ++ int_repr z)
  | ApiFailed PNone => Some (py "API request failed: None")
  | ApiFailed _ => None
  | RequestFailed (TransportFailure d) => Some (py "Request failed: " ++ d)
  | RequestFailed (JSONDecodeError _) => None
  end.

(** The request [_make_request] sends once the signature is [sig]. *)
Definition request_of (v : pystr) (self : AccessGrid) (method endpoint : pystr)
  (data params : option pydict) (sig : pystr) : http_request :=
  mk_request method (base_url self ++ endpoint)
    [(py "X-ACCT-ID", account_id self); (py "X-PAYLOAD-SIG", sig);
     (py "Content-Type", py "application/json"); (py "User-Agent", user_agent v)]
    (json_arg data) params.

(** The text that went on the wire as body, the empty string for none. *)
Definition body_text (rq : http_request) : pystr :=
  match wire_body rq with Some t => t | None => [] end.

(* ------------------------------------------------------------------ *)
(** ** The path [requests] sends for a URL

    [requests.request] prepares the URL ([PreparedRequest.prepare_url]):
    urllib3's [parse_url] splits it, and for an [http] or [https] URL
    removes the dot segments of its path and percent-encodes the
    characters not allowed in a path ([_encode_invalid_chars]); an empty
    path becomes [/]; then [requote_uri] runs over the URL put back
    together.  Each change [requote_uri] makes stays within one [%XX]
    group or one character, and a [?] or [#] ends the path, so on the
    path of the URL it acts as on the path alone.  The server routes on
    that path, percent-decoded. *)

Definition is_alpha (c : Z) : bool :=
  ((65 <=? c) && (c <=? 90)) || ((97 <=? c) && (c <=? 122)).

Definition in_set (cs : pystr) (c : Z) : bool := existsb (Z.eqb c) cs.

(** [UNRESERVED_CHARS] (urllib3), [UNRESERVED_SET] (requests) and
    [_ALWAYS_SAFE] ([urllib.parse]): the same ASCII set. *)
Definition unreserved (c : Z) : bool :=
  is_alpha c || is_digit c || in_set (py "._-~") c.

(** urllib3's [_PATH_CHARS]: unreserved, sub-delims, [:], [@] and [/]. *)
Definition path_char (c : Z) : bool :=
  unreserved c || in_set (py "!$&'()*+,;=") c || in_set (py ":@/") c.

Definition is_hex (c : Z) : bool :=
  match hex_val c with Some _ => true | None => false end.

Definition hex_upper (n : Z) : Z := if n <? 10 then 48 + n else 55 + n.

(** ['%' + hex(b)[2:].zfill(2).upper()], and [quote]'s ['%%%02X' % b] *)
Definition pct_byte (b : Z) : pystr := [37; hex_upper (b / 16); hex_upper (b mod 16)].

Definition ascii_upper (c : Z) : Z := if (97 <=? c) && (c <=? 122) then c - 32 else c.

Definition ascii_lower (c : Z) : Z := if (65 <=? c) && (c <=? 90) then c + 32 else c.

(** [str.encode("utf-8", "surrogatepass")] of one character. *)
Definition utf8_sp (c : Z) : bytes :=
  if c <? 128 then [c]
  else if c <? 2048 then [192 + Z.shiftr c 6; 128 + c mod 64]
  else if c <? 65536 then [224 + Z.shiftr c 12; 128 + Z.shiftr c 6 mod 64; 128 + c mod 64]
  else [240 + Z.shiftr c 18; 128 + Z.shiftr c 12 mod 64; 128 + Z.shiftr c 6 mod 64; 128 + c mod 64].

(** [_PERCENT_RE.subn(lambda m: m.group(0).upper(), component)] with
    [_PERCENT_RE = re.compile(r"%[a-fA-F0-9]{2}")]: the text and the
    number of matches. *)
Fixpoint pct_normalize (s : pystr) : pystr * nat :=
  match s with
  | 37 :: ((a :: b :: r) as t) =>
      if is_hex a && is_hex b then
        let (r', n) := pct_normalize r in (37 :: ascii_upper a :: ascii_upper b :: r', S n)
      else let (t', n) := pct_normalize t in (37 :: t', n)
  | c :: r => let (r', n) := pct_normalize r in (c :: r', n)
  | [] => ([], O)
  end.

(** urllib3's [_encode_invalid_chars(component, allowed_chars)] *)
Definition encode_invalid_chars (allowed : Z -> bool) (component : pystr) : pystr :=
  let (component', percent_encodings) := pct_normalize component in
  let uri_bytes := flat_map utf8_sp component' in
  let is_percent_encoded := Nat.eqb percent_encodings (count_occ Z.eq_dec uri_bytes 37) in
  flat_map (fun b => if (is_percent_encoded && (b =? 37)) || ((b <? 128) && allowed b)
                     then [b] else pct_byte b) uri_bytes.

(** [s.split(sep)] *)
Fixpoint split_on (sep : Z) (s : pystr) : list pystr :=
  match s with
  | [] => [[]]
  | c :: r =>
      if c =? sep then [] :: split_on sep r
      else match split_on sep r with
           | p :: ps => (c :: p) :: ps
           | [] => [[c]]
           end
  end.

(** The loop of [_remove_path_dot_segments] over the segments; the
    output is kept reversed, so that [output.pop()] is [tl]. *)
Fixpoint dot_segments (segments : list pystr) (output : list pystr) : list pystr :=
  match segments with
  | [] => rev output
  | segment :: r =>
      if str_eqb segment [46] then dot_segments r output
      else if negb (str_eqb segment [46; 46]) then dot_segments r (segment :: output)
      else dot_segments r (tl output)
  end.

Definition ends_with (suffix s : pystr) : bool := starts_with (rev suffix) (rev s).

(** urllib3's [_remove_path_dot_segments] *)
Definition remove_path_dot_segments (path : pystr) : pystr :=
  let output := dot_segments (split_on 47 path) [] in
  let output :=
    if starts_with [47] path && match output with [] => true | o :: _ => negb (str_eqb o []) end
    then [] :: output else output in
  let output :=
    if ends_with [47; 46] path || ends_with [47; 46; 46] path then output ++ [[]] else output in
  join [47] output.

(** [[a-zA-Z0-9+.-]*:] (with [dot]) or [[a-zA-Z0-9+-]*:] after the
    first letter of a scheme: the rest of the scheme and the text after
    the [:]. *)
Fixpoint scheme_split (dot : bool) (s : pystr) : option (pystr * pystr) :=
  match s with
  | 58 :: r => Some ([], r)
  | c :: r =>
      if is_alpha c || is_digit c || (c =? 43) || (c =? 45) || (dot && (c =? 46))
      then option_map (fun st => (c :: fst st, snd st)) (scheme_split dot r)
      else None
  | [] => None
  end.

Fixpoint take_until (stop : pystr) (s : pystr) : pystr :=
  match s with
  | c :: r => if in_set stop c then [] else c :: take_until stop r
  | [] => []
  end.

Fixpoint drop_until (stop : pystr) (s : pystr) : pystr :=
  match s with
  | c :: r => if in_set stop c then s else drop_until stop r
  | [] => []
  end.

(** urllib3's [parse_url(url).path]: [_SCHEME_RE] decides whether [//]
    is put in front, [_URI_RE] splits off the scheme, the authority and
    what follows the path, and the path of an [http], [https] or
    scheme-less URL is normalized. *)
Definition parse_url_path (url : pystr) : pystr :=
  let has_scheme :=
    match url with
    | 47 :: _ => true
    | c :: r => is_alpha c && match scheme_split false r with Some _ => true | None => false end
    | [] => false
    end in
  let url := if has_scheme then url else 47 :: 47 :: url in
  let '(scheme, rest) :=
    match url with
    | c :: r =>
        if is_alpha c then
          match scheme_split true r with
          | Some (sc, t) => (Some (c :: sc), t)
          | None => (None, url)
          end
        else (None, url)
    | [] => (None, url)
    end in
  let rest :=
    match rest with
    | 47 :: 47 :: r => drop_until [92; 47; 63; 35] r
    | _ => rest
    end in
  let path := take_until [63; 35] rest in
  let normalize_uri :=
    match scheme with
    | None => true
    | Some sc => str_eqb (map ascii_lower sc) (py "http") || str_eqb (map ascii_lower sc) (py "https")
    end in
  match path with
  | [] => []
  | _ :: _ =>
      if normalize_uri then encode_invalid_chars path_char (remove_path_dot_segments path)
      else path
  end.

(** The body of [requests.utils.unquote_unreserved] for each part after
    the first [%], on ASCII text (all it gets here: urllib3 has already
    percent-encoded every other character); [None] is [InvalidURL]. *)
Definition unquote_part (part : pystr) : option pystr :=
  match part with
  | a :: b :: r =>
      if (is_alpha a || is_digit a) && (is_alpha b || is_digit b) then
        match hex_val a, hex_val b with
        | Some x, Some y =>
            if unreserved (16 * x + y) then Some ((16 * x + y) :: r) else Some (37 :: part)
        | _, _ => None
        end
      else Some (37 :: part)
  | _ => Some (37 :: part)
  end.

Fixpoint unquote_parts (parts : list pystr) : option pystr :=
  match parts with
  | [] => Some []
  | p :: r =>
      match unquote_part p, unquote_parts r with
      | Some p', Some r' => Some (p' ++ r')
      | _, _ => None
      end
  end.

(** [requests.utils.unquote_unreserved] *)
Definition unquote_unreserved (uri : pystr) : option pystr :=
  match split_on 37 uri with
  | p0 :: parts => option_map (fun r => p0 ++ r) (unquote_parts parts)
  | [] => Some []
  end.

(** [urllib.parse.quote_from_bytes(bs, safe)] *)
Definition quote_from_bytes (bs : bytes) (safe : pystr) : pystr :=
  flat_map (fun b => if unreserved b || in_set safe b then [b] else pct_byte b) bs.

(** [urllib.parse.quote(s, safe)] for a text without surrogates. *)
Definition quote (s : pystr) (safe : pystr) : pystr := quote_from_bytes (flat_map utf8_sp s) safe.

(** [requests.utils.requote_uri] *)
Definition requote_uri (uri : pystr) : pystr :=
  match unquote_unreserved uri with
  | Some u => quote u (py "!#$%&'()*+,/:;=?@[]~")
  | None => quote uri (py "!#$&'()*+,/:;=?@[]~")
  end.

(** The path of the URL [requests] sends for a [url] that begins with
    [http://] or [https://] and a host ([if not path: path = "/"] in
    [prepare_url]). *)
Definition sent_path (url : pystr) : pystr :=
  requote_uri (match parse_url_path url with [] => [47] | p => p end).

(** [urllib.parse.unquote_to_bytes]: the bytes the server reads the path
    as. *)
Definition unquote_to_bytes (s : pystr) : bytes :=
  match split_on 37 s with
  | [] => []
  | [p0] => p0
  | p0 :: items =>
      p0 ++ flat_map (fun item =>
                        match item with
                        | a :: b :: r =>
                            match hex_val a, hex_val b with
                            | Some x, Some y => (16 * x + y) :: r
                            | _, _ => 37 :: item
                            end
                        | _ => 37 :: item
                        end) items
  end.

(** Running a [client = AccessGrid(...)] construction followed by [f(client)]. *)
Definition with_client {A : Type} (account_id secret_key : option pystr) (base_url : pystr)
  (f : AccessGrid -> prog A) : prog A :=
  match AccessGrid_init account_id secret_key base_url with
  | inl c => f c
  | inr e => Raise e
  end.

(* ------------------------------------------------------------------ *)
(** ** Proof predicates and tactics *)

Definition byte_range (x : Z) : Prop := 0 <= x < 256.

Definition ascii_range (x : Z) : Prop := 0 <= x < 128.

(** Turn the [2 ^ n] that [Z.shiftr_div_pow2] leaves into numerals. *)
Ltac norm_pow :=
  repeat match goal with
         | |- context [2 ^ ?n] =>
             let v := eval vm_compute in (2 ^ n) in change (2 ^ n) with v
         end.

Ltac forall_lits :=
  repeat apply Forall_cons; try apply Forall_nil.

(** A computation that is already a value or an exception. *)
Inductive settled {A : Type} : prog A -> Prop :=
| settled_ret : forall a, settled (Ret a)
| settled_raise : forall e, settled (Raise e).

(** Values whose floats have ASCII texts.  The model keeps a float as
    the text [json.dumps] writes for it, which [float.__repr__] (or
    [Infinity], [-Infinity], [NaN]) makes ASCII for every Python float. *)
Fixpoint floats_ascii (v : pyval) : bool :=
  match v with
  | PFloat t => forallb (fun c => (0 <=? c) && (c <? 128)) t
  | PList l => forallb floats_ascii l
  | PDict d => forallb (fun kv => floats_ascii (snd kv)) d
  | _ => true
  end.

Definition dict_floats_ascii (data : option pydict) : bool :=
  match data with Some d => floats_ascii (PDict d) | None => true end.

(** A Unicode scalar value: a code point that is no surrogate. *)
Definition scalar (c : Z) : bool :=
  (0 <=? c) && (c <? 1114112) && negb ((55296 <=? c) && (c <=? 57343)).

(** The keys of a dict are pairwise distinct. *)
Fixpoint keys_distinct (d : pydict) : bool :=
  match d with
  | [] => true
  | (k, _) :: r => negb (existsb (fun kv => str_eqb k (fst kv)) r) && keys_distinct r
  end.

(** Values that a Python program can hand to [json.dumps] and get back
    from [json.loads] unchanged: no float, strings of scalar values, and
    dicts with distinct keys (as every Python dict has). *)
Fixpoint wire_safe (v : pyval) : bool :=
  match v with
  | PFloat _ => false
  | PStr s => forallb scalar s
  | PList l => forallb wire_safe l
  | PDict d => keys_distinct d && forallb (fun kv => forallb scalar (fst kv) && wire_safe (snd kv)) d
  | _ => true
  end.

(** What may follow a value inside a JSON text that [json.dumps] wrote:
    the end, a comma, or a closing bracket or brace. *)
Definition num_stop (rest : list Z) : bool :=
  match rest with
  | [] => true
  | c :: _ => (c =? 44) || (c =? 93) || (c =? 125)
  end.

(** A lowercase hexadecimal digit. *)
Definition lower_hex (c : Z) : Prop := (48 <= c <= 57) \/ (97 <= c <= 102).

(** Induction on [pyval] through its lists and dicts. *)
Definition pyval_nested_ind (P : pyval -> Prop)
  (Hnone : P PNone) (Hbool : forall b, P (PBool b)) (Hint : forall z, P (PInt z))
  (Hfloat : forall t, P (PFloat t)) (Hstr : forall s, P (PStr s))
  (Hlist : forall l, Forall P l -> P (PList l))
  (Hdict : forall d, Forall (fun kv => P (snd kv)) d -> P (PDict d)) : forall v, P v :=
  fix go (v : pyval) : P v :=
    match v with
    | PNone => Hnone
    | PBool b => Hbool b
    | PInt z => Hint z
    | PFloat t => Hfloat t
    | PStr s => Hstr s
    | PList l =>
        Hlist l ((fix gl (l : list pyval) : Forall P l :=
                    match l with
                    | [] => Forall_nil _
                    | x :: r => Forall_cons _ (go x) (gl r)
                    end) l)
    | PDict d =>
        Hdict d ((fix gd (d : pydict) : Forall (fun kv => P (snd kv)) d :=
                    match d with
                    | [] => Forall_nil _
                    | (k, x) :: r => Forall_cons (P := fun kv => P (snd kv)) (k, x) (go x) (gd r)
                    end) d)
    end.

(** A server that cannot be reached: every request fails in transport. *)
Definition unreachable (detail : pystr) : http_request -> transport_result :=
  fun _ => TransportError detail.


(** The first request a computation sends (a blank one if none). *)
Definition first_sent {A : Type} (server : http_request -> transport_result) (p : prog A)
  : http_request :=
  hd (mk_request [] [] [] None None) (fst (run server p)).

(** The first characters of the JSON texts of values: [null], [true],
    [false], a sign or a digit, a quote, a bracket or a brace. *)
Definition dumps_heads : list Z :=
  [110; 116; 102; 45; 48; 49; 50; 51; 52; 53; 54; 55; 56; 57; 34; 91; 123].

(* ------------------------------------------------------------------ *)
(** ** Tests of the embedding on concrete inputs *)

Example json_dumps_ex1 :
  json_dumps (PDict [(py "a", PInt 12); (py "b", PList [PBool true; PNone; PInt (-7)])])
  = pyj "{'a': 12, 'b': [true, null, -7]}".
Proof. reflexivity. Qed.

Example b64encode_ex : b64encode (py "foobar") = py "Zm9vYmFy"
  /\ b64encode (py "fooba") = py "Zm9vYmE="
  /\ b64encode (py "foob") = py "Zm9vYg==".
Proof. vm_compute. auto. Qed.

Example sha256_constants :
  List.length SHA256.K = 64%nat /\ hd 0 SHA256.K = 0x428a2f98 /\ last SHA256.K 0 = 0xc67178f2
  /\ hd 0 SHA256.H0 = 0x6a09e667.
Proof. vm_compute. repeat split. Qed.

Example sha256_abc :
  hexdigest (SHA256.hash (py "abc"))
  = py "ba7816bf8f01cfea414140de5dae2223b00361a396177a9cb410ff61f20015ad".
Proof. vm_compute. reflexivity. Qed.

Example sha256_empty :
  hexdigest (SHA256.hash [])
  = py "e3b0c44298fc1c149afbf4c8996fb92427ae41e4649b934ca495991b7852b855".
Proof. vm_compute. reflexivity. Qed.

Example sha256_two_blocks :
  hexdigest (SHA256.hash (py "abcdbcdecdefdefgefghfghighijhijkijkljklmklmnlmnomnopnopq"))
  = py "248d6a61d20638b8e5c026930c3e6039a33ce45964ff2167f6ecedd419db06c1".
Proof. vm_compute. reflexivity. Qed.

(** RFC 4231, test case 2. *)
Example hmac_sha256_rfc4231_2 :
  hexdigest (hmac_sha256 (py "Jefe") (py "what do ya want for nothing?"))
  = py "5bdcc146bf60754e6a042426089575c75a003f089d2739839dec58b964ec3843".
Proof. vm_compute. reflexivity. Qed.

(** RFC 4231, test case 6 (a 131-byte key is hashed first). *)
Example hmac_sha256_rfc4231_6 :
  hexdigest (hmac_sha256 (repeat 170 131)
               (py "Test Using Larger Than Block-Size Key - Hash Key First"))
  = py "60e431591ee0b67f0d8a26aacbf5b77f8e0bc6213728c5140546040f0ee37f54".
Proof. vm_compute. reflexivity. Qed.

Example json_loads_ex :
  json_loads (pyj " {'message': 'boom', 'a': [1, -2.5e3, true, {}], 'message': null} ")
  = Some (PDict [(py "message", PNone);
                 (py "a", PList [PInt 1; PFloat (py "-2.5e3"); PBool true; PDict []])]).
Proof. vm_compute. reflexivity. Qed.

Example json_loads_errors :
  json_loads [] = None /\ json_loads (py "[1,]") = None /\ json_loads (py "01") = None
  /\ json_loads (py "Internal Server Error") = None.
Proof. vm_compute. repeat split. Qed.

Example json_roundtrip_jane :
  json_loads (json_dumps (PDict [(py "full_name", PStr (py "Jane Doe"))]))
  = Some (PDict [(py "full_name", PStr (py "Jane Doe"))]).
Proof. vm_compute. reflexivity. Qed.

Example issue_run :
  run (answer 200 (pyj "{'id': 'c1', 'state': 'active'}"))
      (AccessCards_issue (py "1.0") (access_cards acct_1) jane)
  = ([mk_request (py "POST") (py "https://api.accessgrid.com/v1/key-cards")
        [(py "X-ACCT-ID", py "acct_1");
         (py "X-PAYLOAD-SIG", hexdigest (hmac_sha256 (py "s3cret") (b64encode jane_json)));
         (py "Content-Type", py "application/json");
         (py "User-Agent", py "accessgrid.py @ v1.0")]
        (Some (PDict jane)) None],
     inl (AccessCard.mk acct_1 (PStr (py "c1")) PNone (PStr (py "active")) PNone PNone)).
Proof. vm_compute. reflexivity. Qed.

(* ------------------------------------------------------------------ *)
(** ** Lemmas on the effect layer *)

Lemma run_bind {A B} (server : http_request -> transport_result) (p : prog A) (f : A -> prog B) :
  run server (bind p f) =
  let (s1, r1) := run server p in
  match r1 with
  | inl a => let (s2, r2) := run server (f a) in (s1 ++ s2, r2)
  | inr e => (s1, inr e)
  end.
Proof.
  induction p as [a | e | rq k IH]; simpl.
  - destruct (run server (f a)); reflexivity.
  - reflexivity.
  - rewrite IH. destruct (run server (k (server rq))) as [s1 [a | e]]; [| reflexivity].
    destruct (run server (f a)); reflexivity.
Qed.

Lemma settled_run {A} (server : http_request -> transport_result) (p : prog A) :
  settled p -> fst (run server p) = [].
Proof. intros []; reflexivity. Qed.

Lemma response_json_settled r : settled (response_json r).
Proof. unfold response_json. destruct (json_loads (text r)); constructor. Qed.

Lemma handle_transport_settled t : settled (handle_transport t).
Proof.
  destruct t as [r | d]; simpl; [| constructor].
  unfold handle_response.
  destruct (status_code r =? 401); [constructor |].
  destruct (status_code r =? 402); [constructor |].
  destruct (negb _); [| apply response_json_settled].
  destruct (str_truthy (text r)); simpl; [| constructor].
  unfold response_json. destruct (json_loads (text r)) as [[] |]; simpl; constructor.
Qed.

Lemma AccessCard_init_settled c v : settled (AccessCard.init c v).
Proof. destruct v; constructor. Qed.

Lemma Template_init_settled c v : settled (Template.init c v).
Proof. destruct v; constructor. Qed.

(* ------------------------------------------------------------------ *)
(** ** Lemmas on the encodings *)

Lemma some_forall (P : Z -> Prop) (l b : list Z) :
  Some l = Some b -> Forall P l -> Forall P b.
Proof. intros H; injection H as <-; auto. Qed.

Lemma utf8_char_bytes c b : utf8_char c = Some b -> Forall byte_range b.
Proof.
  unfold utf8_char, byte_range.
  rewrite !Z.shiftr_div_pow2 by lia. norm_pow.
  destruct (Z.ltb_spec c 0); [discriminate |].
  destruct (Z.ltb_spec c 128).
  { intros Heq; apply (some_forall _ _ _ Heq); forall_lits; lia. }
  destruct (Z.ltb_spec c 2048).
  { intros Heq; apply (some_forall _ _ _ Heq); forall_lits;
      Z.div_mod_to_equations; lia. }
  destruct ((55296 <=? c) && (c <=? 57343)); [discriminate |].
  destruct (Z.ltb_spec c 65536).
  { intros Heq; apply (some_forall _ _ _ Heq); forall_lits;
      Z.div_mod_to_equations; lia. }
  destruct (Z.ltb_spec c 1114112); [| discriminate].
  intros Heq; apply (some_forall _ _ _ Heq); forall_lits;
    Z.div_mod_to_equations; lia.
Qed.

Lemma str_encode_bytes s b : str_encode s = Some b -> Forall byte_range b.
Proof.
  revert b; induction s as [| c r IH]; simpl; intros b H.
  - injection H as <-; constructor.
  - destruct (utf8_char c) as [bc |] eqn:Hc; [| discriminate].
    destruct (str_encode r) as [br |]; [| discriminate].
    injection H as <-. apply Forall_app; split; [eapply utf8_char_bytes; eauto | auto].
Qed.

Lemma b64_char_ascii n : 0 <= n < 64 -> ascii_range (b64_char n).
Proof.
  unfold b64_char, ascii_range; intros Hn.
  destruct (Z.ltb_spec n 26); [lia |].
  destruct (Z.ltb_spec n 52); [lia |].
  destruct (Z.ltb_spec n 62); [lia |].
  destruct (Z.eqb_spec n 62); lia.
Qed.

Lemma b64encode_ascii b : Forall byte_range b -> Forall ascii_range (b64encode b).
Proof.
  intros Hb.
  assert (Hall : forall n l, (List.length l <= n)%nat -> Forall byte_range l ->
                 Forall ascii_range (b64encode l)).
  { induction n as [| n IH]; intros l Hl Hf.
    - destruct l; [constructor | simpl in Hl; lia].
    - destruct l as [| x [| y [| z r]]]; cbn [b64encode]; [constructor | | |].
      + inversion Hf as [| ? ? Hx _]; unfold byte_range in *.
        rewrite ?Z.shiftr_div_pow2, ?Z.shiftl_mul_pow2 by lia; norm_pow.
        forall_lits;
          first [apply b64_char_ascii; Z.div_mod_to_equations; lia | unfold ascii_range; lia].
      + inversion Hf as [| ? ? Hx Hf']; inversion Hf' as [| ? ? Hy _];
          unfold byte_range in *.
        rewrite ?Z.shiftr_div_pow2, ?Z.shiftl_mul_pow2 by lia; norm_pow.
        forall_lits;
          first [apply b64_char_ascii; Z.div_mod_to_equations; lia | unfold ascii_range; lia].
      + inversion Hf as [| ? ? Hx Hf']; inversion Hf' as [| ? ? Hy Hf''];
          inversion Hf'' as [| ? ? Hz Hr]; unfold byte_range in *.
        apply Forall_app; split.
        * rewrite ?Z.shiftr_div_pow2, ?Z.shiftl_mul_pow2 by lia; norm_pow.
          forall_lits;
          first [apply b64_char_ascii; Z.div_mod_to_equations; lia | unfold ascii_range; lia].
        * apply IH; [simpl in Hl; lia | exact Hr]. }
  exact (Hall _ b (le_n _) Hb).
Qed.

Lemma str_encode_ascii s : Forall ascii_range s -> str_encode s = Some s.
Proof.
  induction 1 as [| c r Hc _ IH]; [reflexivity |].
  simpl. unfold ascii_range in Hc. unfold utf8_char.
  destruct (Z.ltb_spec c 0); [lia |].
  destruct (Z.ltb_spec c 128); [| lia].
  rewrite IH. reflexivity.
Qed.

(** [_generate_signature]: the HMAC of the base64 text of the payload's
    UTF-8 bytes, keyed by the UTF-8 bytes of the secret. *)
Lemma generate_signature_eq self payload :
  _generate_signature self payload =
  match str_encode payload, str_encode (secret_key self) with
  | Some pb, Some k => Ret (hexdigest (hmac_sha256 k (b64encode pb)))
  | _, _ => Raise UnicodeEncodeError
  end.
Proof.
  unfold _generate_signature, ascii_decode.
  destruct (str_encode payload) as [pb |] eqn:Hp; [| reflexivity].
  rewrite (str_encode_ascii (b64encode pb))
    by (apply b64encode_ascii; eapply str_encode_bytes; eauto).
  destruct (str_encode (secret_key self)); reflexivity.
Qed.

(* ------------------------------------------------------------------ *)
(** ** Running [_make_request] *)

Lemma run_make_request_ok v server self m ep data params sig :
  _generate_signature self (payload_of data) = Ret sig ->
  run server (_make_request v self m ep data params) =
  (request_of v self m ep data params sig :: [],
   snd (run server (handle_transport (server (request_of v self m ep data params sig))))).
Proof.
  intros Hs. unfold _make_request. rewrite Hs. simpl.
  set (t := server _).
  pose proof (settled_run server _ (handle_transport_settled t)) as H0.
  destruct (run server (handle_transport t)) as [sent r]; simpl in *; subst; reflexivity.
Qed.

Lemma run_make_request_err v server self m ep data params e :
  _generate_signature self (payload_of data) = Raise e ->
  run server (_make_request v self m ep data params) = ([], inr e).
Proof. intros Hs. unfold _make_request. rewrite Hs. reflexivity. Qed.

(** A signature is a value or [UnicodeEncodeError]. *)
Lemma generate_signature_cases self p :
  (exists sig, _generate_signature self p = Ret sig)
  \/ _generate_signature self p = Raise UnicodeEncodeError.
Proof.
  rewrite generate_signature_eq.
  destruct (str_encode p), (str_encode (secret_key self)); eauto.
Qed.

Lemma wire_body_request_of v self m ep data params sig :
  body_text (request_of v self m ep data params sig) = payload_of data.
Proof.
  unfold body_text, wire_body, request_of, json_arg, payload_of; simpl.
  destruct data as [[| kv d] |]; reflexivity.
Qed.

(** The requests an operation sends when it post-processes the response
    without further I/O. *)
Lemma run_then_settled {B} v server self m ep data params (f : pyval -> prog B) :
  (forall x, settled (f x)) ->
  fst (run server (bind (_make_request v self m ep data params) f))
  = fst (run server (_make_request v self m ep data params)).
Proof.
  intros Hf. rewrite run_bind.
  destruct (run server (_make_request v self m ep data params)) as [s1 [a | e]]; [| reflexivity].
  pose proof (settled_run server _ (Hf a)) as H0.
  destruct (run server (f a)) as [s2 r2]; simpl in *; subst. apply app_nil_r.
Qed.

(* ------------------------------------------------------------------ *)
(** ** The claims *)

(** C1: every request carries in [X-PAYLOAD-SIG] the lowercase hex
    HMAC-SHA256, keyed by the UTF-8 bytes of [secret_key], of the base64
    text of the UTF-8 bytes of the body's JSON text (the empty string when
    no body is sent); for [acct_1] issuing Jane Doe's card, the body is
    the [json.dumps] text with comma-space and colon-space separators,
    and the signature is the HMAC of its base64 text under [s3cret]. *)
Theorem payload_signature_header :
  (forall v server self m ep data params,
     Forall (fun rq => exists k b,
               str_encode (secret_key self) = Some k /\
               str_encode (body_text rq) = Some b /\
               header_get (headers rq) (py "X-PAYLOAD-SIG")
               = Some (hexdigest (hmac_sha256 k (b64encode b))))
       (fst (run server (_make_request v self m ep data params))))
  /\ AccessGrid_init (Some (py "acct_1")) (Some (py "s3cret")) default_base_url = inl acct_1
  /\ json_dumps (PDict jane) = jane_json
  /\ (forall v server, exists rq,
        fst (run server (AccessCards_issue v (access_cards acct_1) jane)) = [rq] /\
        method rq = py "POST" /\
        url rq = py "https://api.accessgrid.com/v1/key-cards" /\
        wire_body rq = Some jane_json /\
        header_get (headers rq) (py "X-ACCT-ID") = Some (py "acct_1") /\
        header_get (headers rq) (py "X-PAYLOAD-SIG")
        = Some (hexdigest (hmac_sha256 (py "s3cret") (b64encode jane_json)))).
Proof.
  split; [| split; [| split]].
  - intros v server self m ep data params.
    destruct (generate_signature_cases self (payload_of data)) as [[sig Hs] | He].
    + rewrite (run_make_request_ok v server self m ep data params sig Hs). simpl.
      constructor; [| constructor].
      rewrite generate_signature_eq in Hs.
      destruct (str_encode (payload_of data)) as [pb |] eqn:Hp; [| discriminate].
      destruct (str_encode (secret_key self)) as [k |]; [| discriminate].
      injection Hs as <-.
      exists k, pb. rewrite wire_body_request_of. repeat split; auto.
    + rewrite (run_make_request_err v server self m ep data params _ He). constructor.
  - reflexivity.
  - vm_compute. reflexivity.
  - intros v server.
    assert (Hs : _generate_signature acct_1 (payload_of (Some jane))
                 = Ret (hexdigest (hmac_sha256 (py "s3cret") (b64encode jane_json))))
      by (vm_compute; reflexivity).
    unfold AccessCards_issue, _post.
    rewrite (run_then_settled _ _ _ _ _ _ _ _ (AccessCard_init_settled _)).
    rewrite (run_make_request_ok _ _ _ _ _ _ _ _ Hs).
    eexists; split; [reflexivity |].
    repeat split; vm_compute; reflexivity.
Qed.

(** C3: with no body ([data=None], as [_get] passes, or the empty dict,
    as [manage] passes) no body is sent and the signed text is the base64
    text of the empty string, itself empty: the signature is the hex
    HMAC-SHA256 of the empty message under the secret. *)
Theorem empty_body_signature :
  b64encode (py "") = py ""
  /\ forall v server self m ep params,
     (forall data, data = None \/ data = Some [] ->
      Forall (fun rq => wire_body rq = None /\
                exists k, str_encode (secret_key self) = Some k /\
                  header_get (headers rq) (py "X-PAYLOAD-SIG")
                  = Some (hexdigest (hmac_sha256 k (b64encode (py "")))))
        (fst (run server (_make_request v self m ep data params)))).
Proof.
  split; [reflexivity |].
  intros v server self m ep params data Hdata.
  assert (Hp : payload_of data = [] /\ json_arg data = None)
    by (destruct Hdata as [-> | ->]; split; reflexivity).
  destruct Hp as [Hp Hj].
  destruct (generate_signature_cases self (payload_of data)) as [[sig Hs] | He].
  - rewrite (run_make_request_ok v server self m ep data params sig Hs). simpl.
    constructor; [| constructor].
    rewrite generate_signature_eq, Hp in Hs. simpl in Hs.
    destruct (str_encode (secret_key self)) as [k |]; [| discriminate].
    injection Hs as <-.
    unfold wire_body; simpl. rewrite Hj. split; [reflexivity |].
    exists k. split; reflexivity.
  - rewrite (run_make_request_err v server self m ep data params _ He). constructor.
Qed.

(** Witness: a [GET] without body from [acct_1]. *)
Lemma empty_body_signature_witness :
  Forall (fun rq => wire_body rq = None /\
            exists k, str_encode (secret_key acct_1) = Some k /\
              header_get (headers rq) (py "X-PAYLOAD-SIG")
              = Some (hexdigest (hmac_sha256 k (b64encode (py "")))))
    (fst (run (answer 200 (py "{}"))
              (_make_request (py "1.0") acct_1 (py "GET") (py "/v1/console/card-templates/t1")
                 None None))).
Proof.
  apply (proj2 empty_body_signature (py "1.0") (answer 200 (py "{}")) acct_1 (py "GET")
           (py "/v1/console/card-templates/t1") None None).
  left; reflexivity.
Defined.

(** Only a [401] answer raises [AuthenticationError]. *)
Lemma handle_response_auth server r e :
  snd (run server (handle_response r)) = inr e ->
  isinstance e "AuthenticationError" = true -> status_code r = 401.
Proof.
  unfold handle_response.
  destruct (Z.eqb_spec (status_code r) 401); [auto |].
  destruct (Z.eqb_spec (status_code r) 402).
  { simpl; intros H; injection H as <-; discriminate. }
  assert (Hj : snd (run server (response_json r)) = inr e ->
               isinstance e "AuthenticationError" = true -> status_code r = 401).
  { unfold response_json. destruct (json_loads (text r)); simpl;
      [discriminate | intros H; injection H as <-; discriminate]. }
  destruct (negb _); [| exact Hj].
  destruct (str_truthy (text r)); simpl.
  - unfold response_json. destruct (json_loads (text r)) as [[] |]; simpl;
      intros H; injection H as <-; discriminate.
  - intros H; injection H as <-; discriminate.
Qed.

(** The answer the server gives to the one request of [_make_request]. *)
Lemma make_request_answer v server self m ep data params rq :
  In rq (fst (run server (_make_request v self m ep data params))) ->
  snd (run server (_make_request v self m ep data params))
  = snd (run server (handle_transport (server rq))).
Proof.
  destruct (generate_signature_cases self (payload_of data)) as [[sig Hs] | He].
  - rewrite (run_make_request_ok v server self m ep data params sig Hs). simpl.
    intros [<- | []]. reflexivity.
  - rewrite (run_make_request_err v server self m ep data params _ He). simpl. intros [].
Qed.

(** C2 (as the code has it): a [401] answer raises
    [AuthenticationError("Invalid credentials")] and no other answer
    raises an [AuthenticationError]; a [402] answer raises
    [AccessGridError("Insufficient account balance")]; any other status
    outside [200, 300) raises [AccessGridError] with the message
    [API request failed: ] followed by the body's [message] field when
    the body is a JSON object holding one, and by the raw response text
    when the body is empty or a JSON object without that field. *)
Theorem response_classification :
  forall v server self m ep data params rq r,
  In rq (fst (run server (_make_request v self m ep data params))) ->
  server rq = Response r ->
  let res := snd (run server (_make_request v self m ep data params)) in
  (status_code r = 401 -> res = inr (AuthenticationError (py "Invalid credentials")))
  /\ (forall e, res = inr e -> isinstance e "AuthenticationError" = true -> status_code r = 401)
  /\ (status_code r = 402 ->
      res = inr (AccessGridError (Text (py "Insufficient account balance"))))
  /\ (status_code r <> 401 -> status_code r <> 402 -> ~ (200 <= status_code r < 300) ->
      (text r = [] -> res = inr (AccessGridError (ApiFailed (PStr []))))
      /\ (forall d, json_loads (text r) = Some (PDict d) ->
          res = inr (AccessGridError
                       (ApiFailed (dict_get_default d (py "message") (PStr (text r))))))).
Proof.
  intros v server self m ep data params rq r Hin Hsrv res.
  unfold res; rewrite (make_request_answer v server self m ep data params rq Hin), Hsrv.
  simpl handle_transport.
  split; [| split; [| split]].
  - intros H401. unfold handle_response. rewrite H401. reflexivity.
  - apply handle_response_auth.
  - intros H402. unfold handle_response. rewrite H402. reflexivity.
  - intros H1 H2 H3. unfold handle_response.
    rewrite (proj2 (Z.eqb_neq _ _) H1), (proj2 (Z.eqb_neq _ _) H2).
    replace (negb ((200 <=? status_code r) && (status_code r <? 300))) with true
      by (destruct (Z.leb_spec 200 (status_code r)), (Z.ltb_spec (status_code r) 300);
          simpl; auto; lia).
    split.
    + intros Ht. rewrite Ht. reflexivity.
    + intros d Hd. destruct (text r) as [| c t] eqn:Ht; [discriminate |].
      simpl. unfold response_json. rewrite Ht, Hd. reflexivity.
Qed.

Lemma response_classification_witness :
  let server := answer 500 (pyj "{'message': 'boom'}") in
  let rq := request_of (py "1.0") acct_1 (py "GET") (py "/v1/console/card-templates/t1") None None
              (hexdigest (hmac_sha256 (py "s3cret") [])) in
  In rq (fst (run server (_make_request (py "1.0") acct_1 (py "GET")
                            (py "/v1/console/card-templates/t1") None None)))
  /\ server rq = Response (mk_response 500 (pyj "{'message': 'boom'}"))
  /\ snd (run server (_make_request (py "1.0") acct_1 (py "GET")
                        (py "/v1/console/card-templates/t1") None None))
     = inr (AccessGridError (ApiFailed (PStr (py "boom")))).
Proof.
  intros server rq.
  assert (Hin : In rq (fst (run server (_make_request (py "1.0") acct_1 (py "GET")
                            (py "/v1/console/card-templates/t1") None None))))
    by (vm_compute; left; reflexivity).
  split; [exact Hin | split; [reflexivity |]].
  destruct (response_classification (py "1.0") server acct_1 (py "GET")
              (py "/v1/console/card-templates/t1") None None rq _ Hin eq_refl)
    as (_ & _ & _ & H).
  rewrite (proj2 (H ltac:(discriminate) ltac:(discriminate) ltac:(simpl; lia))
             [(py "message", PStr (py "boom"))] ltac:(vm_compute; reflexivity)).
  reflexivity.
Defined.

(** C2 fails as stated: the [402] message is capitalised, and the
    message of another failure carries the prefix [API request failed: ]
    before the body's [message] field. *)
Lemma response_classification_counterexample :
  let ep := py "/v1/console/card-templates/t1" in
  snd (run (answer 402 []) (_make_request (py "1.0") acct_1 (py "GET") ep None None))
  = inr (AccessGridError (Text (py "Insufficient account balance")))
  /\ py "Insufficient account balance" <> py "insufficient account balance"
  /\ exists msg,
       snd (run (answer 500 (pyj "{'message': 'boom'}"))
              (_make_request (py "1.0") acct_1 (py "GET") ep None None))
       = inr (AccessGridError msg)
       /\ message_str msg = Some (py "API request failed: boom")
       /\ message_str msg <> Some (py "boom").
Proof.
  intros ep. split; [vm_compute; reflexivity |]. split; [discriminate |].
  eexists; split; [vm_compute; reflexivity |].
  split; [reflexivity | discriminate].
Qed.

(** C4 (as the code has it): [suspend], [resume] and [unlink] are
    [manage] with the action strings [suspend], [resume] and [unlink];
    [manage(card_id, action)] accepts any action string and, when the
    secret encodes to UTF-8, issues exactly one [POST] to
    [/v1/key-cards/{card_id}/{action}] with no body (signed over the
    empty text); with a secret that does not encode (a lone surrogate)
    signing raises [UnicodeEncodeError] and nothing is sent. *)
Theorem manage_requests :
  forall v server self card_id action,
  (forall k, str_encode (secret_key (AccessCards._client self)) = Some k ->
   exists rq,
     fst (run server (AccessCards_manage v self card_id action)) = [rq] /\
     method rq = py "POST" /\
     url rq = base_url (AccessCards._client self) ++ py "/v1/key-cards/" ++ card_id ++ py "/" ++ action /\
     json rq = None /\ wire_body rq = None /\
     header_get (headers rq) (py "X-PAYLOAD-SIG") = Some (hexdigest (hmac_sha256 k [])))
  /\ (str_encode (secret_key (AccessCards._client self)) = None ->
      run server (AccessCards_manage v self card_id action) = ([], inr UnicodeEncodeError))
  /\ AccessCards_suspend v self card_id = AccessCards_manage v self card_id (py "suspend")
  /\ AccessCards_resume v self card_id = AccessCards_manage v self card_id (py "resume")
  /\ AccessCards_unlink v self card_id = AccessCards_manage v self card_id (py "unlink").
Proof.
  intros v server self card_id action.
  split; [| split; [| repeat split]].
  - intros k Hk.
    assert (Hs : _generate_signature (AccessCards._client self) (payload_of (Some []))
                 = Ret (hexdigest (hmac_sha256 k [])))
      by (rewrite generate_signature_eq; simpl; rewrite Hk; reflexivity).
    unfold AccessCards_manage, _post.
    rewrite (run_then_settled _ _ _ _ _ _ _ _ (AccessCard_init_settled _)).
    rewrite (run_make_request_ok _ _ _ _ _ _ _ _ Hs).
    eexists; split; [reflexivity |].
    unfold request_of; simpl. repeat split.
  - intros Hk.
    assert (Hs : _generate_signature (AccessCards._client self) (payload_of (Some []))
                 = Raise UnicodeEncodeError)
      by (rewrite generate_signature_eq; simpl; rewrite Hk; reflexivity).
    unfold AccessCards_manage, _post. rewrite run_bind.
    rewrite (run_make_request_err _ _ _ _ _ _ _ _ Hs). reflexivity.
Qed.

Lemma manage_requests_witness :
  str_encode (secret_key (AccessCards._client (access_cards acct_1))) = Some (py "s3cret")
  /\ (exists rq,
      fst (run (answer 200 (py "{}"))
             (AccessCards_manage (py "1.0") (access_cards acct_1) (py "c1") (py "suspend"))) = [rq]
      /\ url rq = py "https://api.accessgrid.com/v1/key-cards/c1/suspend")
  /\ run (answer 200 (py "{}"))
        (AccessCards_manage (py "1.0")
           (access_cards (mk_AccessGrid (py "acct_1") [55296] default_base_url))
           (py "c1") (py "suspend"))
     = ([], inr UnicodeEncodeError).
Proof.
  assert (Hk : str_encode (secret_key (AccessCards._client (access_cards acct_1)))
               = Some (py "s3cret")) by reflexivity.
  split; [exact Hk |]. split.
  - destruct (proj1 (manage_requests (py "1.0") (answer 200 (py "{}")) (access_cards acct_1)
                (py "c1") (py "suspend")) _ Hk) as (rq & H1 & _ & H2 & _).
    exists rq. split; [exact H1 | rewrite H2; reflexivity].
  - apply (proj1 (proj2 (manage_requests (py "1.0") (answer 200 (py "{}"))
             (access_cards (mk_AccessGrid (py "acct_1") [55296] default_base_url))
             (py "c1") (py "suspend")))).
    reflexivity.
Defined.

(** C4 fails as stated: [manage] with an action outside
    [suspend], [resume], [unlink] is not rejected; it makes a network
    call to the action's sub-path. *)
Lemma manage_requests_counterexample :
  fst (run (answer 404 (pyj "{'message': 'not found'}"))
         (AccessCards_manage (py "1.0") (access_cards acct_1) (py "c1") (py "bogus")))
  = [request_of (py "1.0") acct_1 (py "POST") (py "/v1/key-cards/c1/bogus") (Some []) None
       (hexdigest (hmac_sha256 (py "s3cret") []))].
Proof. vm_compute. reflexivity. Qed.

(** C5: [provision] and [issue], on the same keyword arguments, send the same
    requests and end with the same result, against every server. *)
Theorem provision_is_issue :
  forall v server self kwargs,
  run server (AccessCards_provision v self kwargs) = run server (AccessCards_issue v self kwargs).
Proof. reflexivity. Qed.

(** C6: building an [AccessCard] or a [Template] from a mapping never
    raises; each attribute is [data.get(key)], [None] for a missing key
    (so the empty mapping gives all-[None] entities). *)
Theorem entity_from_mapping :
  forall c d,
  (exists card,
     AccessCard.init c (PDict d) = Ret card /\
     AccessCard.id card = data_get d "id" /\
     AccessCard.url card = data_get d "install_url" /\
     AccessCard.state card = data_get d "state" /\
     AccessCard.full_name card = data_get d "full_name" /\
     AccessCard.expiration_date card = data_get d "expiration_date")
  /\ (exists tpl,
     Template.init c (PDict d) = Ret tpl /\
     Template.id tpl = data_get d "id" /\
     Template.name tpl = data_get d "name" /\
     Template.platform tpl = data_get d "platform" /\
     Template.use_case tpl = data_get d "use_case" /\
     Template.protocol tpl = data_get d "protocol" /\
     Template.created_at tpl = data_get d "created_at" /\
     Template.last_published_at tpl = data_get d "last_published_at" /\
     Template.issued_keys_count tpl = data_get d "issued_keys_count" /\
     Template.active_keys_count tpl = data_get d "active_keys_count" /\
     Template.allowed_device_counts tpl = data_get d "allowed_device_counts" /\
     Template.support_settings tpl = data_get d "support_settings" /\
     Template.terms_settings tpl = data_get d "terms_settings" /\
     Template.style_settings tpl = data_get d "style_settings")
  /\ (forall key, dict_get d (py key) = None -> data_get d key = PNone)
  /\ AccessCard.init c (PDict []) = Ret (AccessCard.mk c PNone PNone PNone PNone PNone)
  /\ Template.init c (PDict [])
     = Ret (Template.mk c PNone PNone PNone PNone PNone PNone PNone PNone PNone PNone PNone
              PNone PNone).
Proof.
  intros c d. split; [| split; [| split; [| split]]].
  - eexists; split; [reflexivity |]. repeat split.
  - eexists; split; [reflexivity |]. repeat split.
  - intros key H. unfold data_get, dict_get_default. rewrite H. reflexivity.
  - reflexivity.
  - reflexivity.
Qed.

Lemma lstrip_slash_spec l :
  exists n, l = repeat 47 n ++ lstrip_slash l
            /\ match lstrip_slash l with c :: _ => c <> 47 | [] => True end.
Proof.
  induction l as [| c r [n [Hn Hh]]]; [exists 0%nat; split; simpl; auto |].
  simpl. destruct (Z.eqb_spec c 47) as [-> | Hc].
  - exists (S n). split; [simpl; rewrite <- Hn; reflexivity | exact Hh].
  - exists 0%nat. split; [reflexivity | exact Hc].
Qed.

(** [rstrip('/')] removes exactly the trailing slashes. *)
Lemma rstrip_slash_spec b :
  exists n, b = rstrip_slash b ++ repeat 47 n
            /\ forall pre, rstrip_slash b <> pre ++ [47].
Proof.
  destruct (lstrip_slash_spec (rev b)) as [n [Hn Hh]].
  exists n. unfold rstrip_slash. split.
  - rewrite <- (rev_involutive b) at 1. rewrite Hn at 1. rewrite rev_app_distr.
    f_equal. apply rev_repeat.
  - intros pre Hpre.
    destruct (lstrip_slash (rev b)) as [| c t] eqn:Hl.
    + destruct pre; discriminate.
    + apply (f_equal (@rev Z)) in Hpre. rewrite rev_involutive, rev_app_distr in Hpre.
      simpl in Hpre. injection Hpre as Hc _. congruence.
Qed.

Lemma make_request_target v server self m ep data params :
  Forall (fun rq => url rq = base_url self ++ ep /\
                    header_get (headers rq) (py "X-ACCT-ID") = Some (account_id self))
    (fst (run server (_make_request v self m ep data params))).
Proof.
  destruct (generate_signature_cases self (payload_of data)) as [[sig Hs] | He].
  - rewrite (run_make_request_ok v server self m ep data params sig Hs).
    constructor; [split; reflexivity | constructor].
  - rewrite (run_make_request_err v server self m ep data params _ He). constructor.
Qed.

(** C7: the construction failure is the builtin [ValueError] (the
    spec's [ConfigurationError]): a missing ([None]) or empty
    [account_id] raises [ValueError("Account ID is required")], checked
    first, and a missing or empty [secret_key] raises
    [ValueError("Secret Key is required")], before any network activity,
    so a program that constructs the client and then calls it sends
    nothing; otherwise the client keeps both values and the base URL
    without its trailing slashes, and every request it sends goes to that
    base URL with that account id. *)
Theorem AccessGrid_init_validation :
  (forall s b, AccessGrid_init None s b = inr (ValueError (py "Account ID is required"))
               /\ AccessGrid_init (Some []) s b = inr (ValueError (py "Account ID is required")))
  /\ (forall x a b,
        AccessGrid_init (Some (x :: a)) None b = inr (ValueError (py "Secret Key is required"))
        /\ AccessGrid_init (Some (x :: a)) (Some []) b
           = inr (ValueError (py "Secret Key is required")))
  /\ (forall A server a s b e (f : AccessGrid -> prog A),
        AccessGrid_init a s b = inr e -> run server (with_client a s b f) = ([], inr e))
  /\ (forall x a y s b, exists c n,
        AccessGrid_init (Some (x :: a)) (Some (y :: s)) b = inl c /\
        account_id c = x :: a /\ secret_key c = y :: s /\
        b = base_url c ++ repeat 47 n /\ (forall pre, base_url c <> pre ++ [47]))
  /\ (forall v server c m ep data params,
        Forall (fun rq => url rq = base_url c ++ ep /\
                          header_get (headers rq) (py "X-ACCT-ID") = Some (account_id c))
          (fst (run server (_make_request v c m ep data params)))).
Proof.
  split; [| split; [| split; [| split]]].
  - intros s b; split; reflexivity.
  - intros x a b; split; reflexivity.
  - intros A server a s b e f H. unfold with_client. rewrite H. reflexivity.
  - intros x a y s b. destruct (rstrip_slash_spec b) as [n [Hn Hp]].
    exists (mk_AccessGrid (x :: a) (y :: s) (rstrip_slash b)), n.
    repeat split; auto.
  - apply make_request_target.
Qed.

Lemma AccessGrid_init_validation_witness :
  AccessGrid_init (Some (py "acct_1")) (Some []) default_base_url
  = inr (ValueError (py "Secret Key is required"))
  /\ run (answer 200 (py "{}"))
       (with_client (Some (py "acct_1")) (Some []) default_base_url
          (fun c => AccessCards_suspend (py "1.0") (access_cards c) (py "c1")))
     = ([], inr (ValueError (py "Secret Key is required"))).
Proof.
  assert (H : AccessGrid_init (Some (py "acct_1")) (Some []) default_base_url
              = inr (ValueError (py "Secret Key is required"))) by reflexivity.
  split; [exact H |].
  apply (proj1 (proj2 (proj2 AccessGrid_init_validation)) _ (answer 200 (py "{}"))
           (Some (py "acct_1")) (Some []) default_base_url _
           (fun c => AccessCards_suspend (py "1.0") (access_cards c) (py "c1")) H).
Defined.

(** C8 (code bug): a [2xx] answer with an empty body makes
    [response.json()] fail, and the decode error is re-raised as
    [AccessGridError("Request failed: ...")] instead of an empty mapping
    being returned; the error path next to it does read an empty body as
    [{}].  A non-empty JSON body of a [2xx] answer is returned parsed. *)
Theorem empty_success_body_raises :
  let ep := py "/v1/console/card-templates/t1" in
  snd (run (answer 200 []) (_make_request (py "1.0") acct_1 (py "GET") ep None None))
  = inr (AccessGridError (RequestFailed (JSONDecodeError [])))
  /\ snd (run (answer 204 []) (AccessCards_suspend (py "1.0") (access_cards acct_1) (py "c1")))
     = inr (AccessGridError (RequestFailed (JSONDecodeError [])))
  /\ snd (run (answer 500 []) (_make_request (py "1.0") acct_1 (py "GET") ep None None))
     = inr (AccessGridError (ApiFailed (PStr [])))
  /\ snd (run (answer 200 (pyj "{'id': 't1'}"))
            (_make_request (py "1.0") acct_1 (py "GET") ep None None))
     = inl (PDict [(py "id", PStr (py "t1"))]).
Proof. intros ep. repeat split; vm_compute; reflexivity. Qed.

(** A key of fewer than 64 bytes and the same key with one more zero
    byte have the same HMAC key block. *)
Lemma key_block_trailing_zero k :
  (List.length k < 64)%nat -> key_block (k ++ [0]) = key_block k.
Proof.
  intros Hk. unfold key_block, block_size.
  rewrite length_app. simpl List.length.
  destruct (Nat.ltb_spec 64 (List.length k + 1)); [lia |].
  destruct (Nat.ltb_spec 64 (List.length k)); [lia |].
  rewrite length_app. simpl List.length.
  rewrite <- app_assoc. f_equal.
  replace (64 - List.length k)%nat with (S (64 - (List.length k + 1))) by lia.
  reflexivity.
Qed.

Lemma generate_signature_secret_only c1 c2 p :
  secret_key c1 = secret_key c2 -> _generate_signature c1 p = _generate_signature c2 p.
Proof. intros H. unfold _generate_signature. rewrite H. reflexivity. Qed.

(** C9 (as the code has it): the signature is a function of the secret
    and the payload text alone (the request's header is that value, with
    no nonce or timestamp, whatever the account id, base URL, method,
    endpoint or query); it does not separate every pair of secrets:
    secrets whose UTF-8 bytes differ by one trailing zero byte (within the
    64-byte HMAC block) sign every payload alike; distinct trivial inputs
    do sign differently. *)
Theorem signature_deterministic :
  (forall c1 c2 p, secret_key c1 = secret_key c2 ->
     _generate_signature c1 p = _generate_signature c2 p)
  /\ (forall v server c m ep data params,
        Forall (fun rq => _generate_signature c (payload_of data)
                          = Ret (match header_get (headers rq) (py "X-PAYLOAD-SIG") with
                                 | Some s => s | None => [] end))
          (fst (run server (_make_request v c m ep data params))))
  /\ (forall c1 c2 p k,
        str_encode (secret_key c1) = Some k ->
        str_encode (secret_key c2) = Some (k ++ [0]) ->
        (List.length k < 64)%nat ->
        _generate_signature c1 p = _generate_signature c2 p)
  /\ _generate_signature acct_1 [] <> _generate_signature acct_1 (py "{}")
  /\ _generate_signature acct_1 jane_json
     <> _generate_signature (mk_AccessGrid (py "acct_1") (py "s3creu") default_base_url) jane_json.
Proof.
  split; [| split; [| split; [| split]]].
  - apply generate_signature_secret_only.
  - intros v server c m ep data params.
    destruct (generate_signature_cases c (payload_of data)) as [[sig Hs] | He].
    + rewrite (run_make_request_ok v server c m ep data params sig Hs).
      constructor; [exact Hs | constructor].
    + rewrite (run_make_request_err v server c m ep data params _ He). constructor.
  - intros c1 c2 p k H1 H2 Hk. rewrite !generate_signature_eq, H1, H2.
    destruct (str_encode p); [| reflexivity].
    unfold hmac_sha256. rewrite key_block_trailing_zero by exact Hk. reflexivity.
  - vm_compute. discriminate.
  - vm_compute. discriminate.
Qed.

Lemma signature_deterministic_witness :
  str_encode (secret_key acct_1) = Some (py "s3cret")
  /\ _generate_signature acct_1 jane_json
     = _generate_signature (mk_AccessGrid (py "acct_1") (py "s3cret" ++ [0]) default_base_url)
         jane_json.
Proof.
  assert (H1 : str_encode (secret_key acct_1) = Some (py "s3cret")) by reflexivity.
  split; [exact H1 |].
  apply (proj1 (proj2 (proj2 signature_deterministic)) _ _ jane_json (py "s3cret") H1);
    [reflexivity | simpl; lia].
Defined.

(** C9 fails as stated: the secrets [s3cret] and [s3cret] followed by a
    NUL character are different (both are accepted by the constructor)
    and give the same signature. *)
Lemma signature_deterministic_counterexample :
  AccessGrid_init (Some (py "acct_1")) (Some (py "s3cret" ++ [0])) default_base_url
  = inl (mk_AccessGrid (py "acct_1") (py "s3cret" ++ [0]) default_base_url)
  /\ secret_key acct_1 <> py "s3cret" ++ [0]
  /\ _generate_signature acct_1 jane_json
     = _generate_signature (mk_AccessGrid (py "acct_1") (py "s3cret" ++ [0]) default_base_url)
         jane_json.
Proof. split; [reflexivity | split; [discriminate | vm_compute; reflexivity]]. Qed.

(** The URLs of an operation are those of its [_make_request]. *)
Lemma op_urls {B} v server self m ep data params (f : pyval -> prog B) :
  (forall x, settled (f x)) ->
  Forall (fun rq => url rq = base_url self ++ ep)
    (fst (run server (bind (_make_request v self m ep data params) f))).
Proof.
  intros Hf. rewrite (run_then_settled v server self m ep data params f Hf).
  eapply Forall_impl; [| apply make_request_target]. intros rq [H _]. exact H.
Qed.

(** C10 (as the libraries have it): the request URL is the base URL
    followed by the endpoint template with the identifiers and the action
    pasted in verbatim, no percent-encoding applied by the client.  A [?]
    or a [/] in an identifier changes the path [requests] sends, against
    the one for the percent-encoded identifier ([quote(id, safe='')]):
    [?] cuts the path, [/] adds segments.  A space does not: [requests]
    (urllib3) percent-encodes it as [%20] itself, the path sent is the one
    for the percent-encoded identifier, and the server decodes the
    intended identifier from it. *)
Theorem path_interpolation_verbatim :
  (forall v server self card_id action,
     Forall (fun rq => url rq = base_url (AccessCards._client self)
                                ++ py "/v1/key-cards/" ++ card_id ++ py "/" ++ action)
       (fst (run server (AccessCards_manage v self card_id action))))
  /\ (forall v server self card_id kwargs,
     Forall (fun rq => url rq = base_url (AccessCards._client self) ++ py "/v1/key-cards/" ++ card_id)
       (fst (run server (AccessCards_update v self card_id kwargs))))
  /\ (forall v server self template_id,
     Forall (fun rq => url rq = base_url (Console._client self)
                                ++ py "/v1/console/card-templates/" ++ template_id)
       (fst (run server (Console_read_template v self template_id))))
  /\ (forall v server self template_id kwargs,
     Forall (fun rq => url rq = base_url (Console._client self)
                                ++ py "/v1/console/card-templates/" ++ template_id)
       (fst (run server (Console_update_template v self template_id kwargs))))
  /\ (forall v server self template_id kwargs,
     Forall (fun rq => url rq = base_url (Console._client self)
                                ++ py "/v1/console/card-templates/" ++ template_id ++ py "/logs")
       (fst (run server (Console_get_logs v self template_id kwargs))))
  /\ map (fun rq => sent_path (url rq))
       (fst (run (answer 200 (py "{}"))
               (AccessCards_manage (py "1.0") (access_cards acct_1) (py "c1?x=") (py "suspend"))))
     = [py "/v1/key-cards/c1"]
  /\ sent_path (py "https://api.accessgrid.com/v1/key-cards/" ++ quote (py "c1?x=") [] ++ py "/suspend")
     = py "/v1/key-cards/c1%3Fx%3D/suspend"
  /\ map (fun rq => sent_path (url rq))
       (fst (run (answer 200 (py "{}"))
               (AccessCards_manage (py "1.0") (access_cards acct_1) (py "a/b") (py "suspend"))))
     = [py "/v1/key-cards/a/b/suspend"]
  /\ sent_path (py "https://api.accessgrid.com/v1/key-cards/" ++ quote (py "a/b") [] ++ py "/suspend")
     = py "/v1/key-cards/a%2Fb/suspend"
  /\ map url
       (fst (run (answer 200 (py "{}"))
               (Console_read_template (py "1.0") (console acct_1) (py "t 1"))))
     = [py "https://api.accessgrid.com/v1/console/card-templates/t 1"]
  /\ map (fun rq => sent_path (url rq))
       (fst (run (answer 200 (py "{}"))
               (Console_read_template (py "1.0") (console acct_1) (py "t 1"))))
     = [sent_path (py "https://api.accessgrid.com/v1/console/card-templates/" ++ quote (py "t 1") [])]
  /\ map (fun rq => unquote_to_bytes (sent_path (url rq)))
       (fst (run (answer 200 (py "{}"))
               (Console_read_template (py "1.0") (console acct_1) (py "t 1"))))
     = [py "/v1/console/card-templates/t 1"].
Proof.
  split; [| split; [| split; [| split; [| split]]]].
  - intros. unfold AccessCards_manage, _post.
    apply op_urls. intros; apply AccessCard_init_settled.
  - intros. unfold AccessCards_update, _put. apply op_urls. intros; apply AccessCard_init_settled.
  - intros. unfold Console_read_template, _get. apply op_urls. intros; apply Template_init_settled.
  - intros. unfold Console_update_template, _put. apply op_urls. intros; apply Template_init_settled.
  - intros. unfold Console_get_logs, _get.
    destruct (generate_signature_cases (Console._client self) (payload_of None)) as [[sig Hs] | He].
    + rewrite (run_make_request_ok _ _ _ _ _ _ _ sig Hs). constructor; [| constructor].
      reflexivity.
    + rewrite (run_make_request_err _ _ _ _ _ _ _ _ He). constructor.
  - repeat split; vm_compute; reflexivity.
Qed.

(** C10 fails as stated: a space in an identifier does not change the
    effective endpoint.  [read_template("t 1")] sends the path
    [/v1/console/card-templates/t%201], the same as for the
    percent-encoded identifier, and the server decodes it to
    [/v1/console/card-templates/t 1]. *)
Lemma path_interpolation_verbatim_counterexample :
  map (fun rq => sent_path (url rq))
    (fst (run (answer 200 (py "{}"))
            (Console_read_template (py "1.0") (console acct_1) (py "t 1"))))
  = [py "/v1/console/card-templates/t%201"]
  /\ sent_path (py "https://api.accessgrid.com/v1/console/card-templates/" ++ quote (py "t 1") [])
     = py "/v1/console/card-templates/t%201"
  /\ unquote_to_bytes (py "/v1/console/card-templates/t%201") = py "/v1/console/card-templates/t 1".
Proof. split; [| split]; vm_compute; reflexivity. Qed.

(* ------------------------------------------------------------------ *)
(** ** Further properties of the client *)

(** *** The request [_make_request] sends *)

Lemma make_request_sent v server self m ep data params :
  (exists sig, _generate_signature self (payload_of data) = Ret sig
     /\ fst (run server (_make_request v self m ep data params))
        = [request_of v self m ep data params sig])
  \/ (_generate_signature self (payload_of data) = Raise UnicodeEncodeError
     /\ run server (_make_request v self m ep data params) = ([], inr UnicodeEncodeError)).
Proof.
  destruct (generate_signature_cases self (payload_of data)) as [[sig Hs] | He].
  - left. exists sig. split; [exact Hs |].
    rewrite (run_make_request_ok v server self m ep data params sig Hs). reflexivity.
  - right. split; [exact He |]. apply run_make_request_err; exact He.
Qed.

(** The outcome of an operation that post-processes the one response
    without further I/O. *)
Lemma op_result {B} v server self m ep data params (f : pyval -> prog B) rq :
  (forall x, settled (f x)) ->
  In rq (fst (run server (bind (_make_request v self m ep data params) f))) ->
  snd (run server (bind (_make_request v self m ep data params) f))
  = match snd (run server (handle_transport (server rq))) with
    | inl a => snd (run server (f a))
    | inr e => inr e
    end.
Proof.
  intros Hf Hin.
  rewrite (run_then_settled v server self m ep data params f Hf) in Hin.
  rewrite <- (make_request_answer v server self m ep data params rq Hin).
  rewrite run_bind.
  destruct (run server (_make_request v self m ep data params)) as [s1 [a | e]]; simpl.
  - destruct (run server (f a)); reflexivity.
  - reflexivity.
Qed.

(** A [2xx] status goes to [response.json()]. *)
Lemma handle_success r :
  200 <= status_code r < 300 -> handle_transport (Response r) = response_json r.
Proof.
  intros Hs. simpl. unfold handle_response.
  destruct (Z.eqb_spec (status_code r) 401); [lia |].
  destruct (Z.eqb_spec (status_code r) 402); [lia |].
  destruct (Z.leb_spec 200 (status_code r)); [| lia].
  destruct (Z.ltb_spec (status_code r) 300); [| lia].
  reflexivity.
Qed.

Lemma json_loads_empty : json_loads [] = None.
Proof. vm_compute. reflexivity. Qed.

(** *** The text [json.dumps] produces is ASCII *)

Lemma ascii_checked l :
  forallb (fun c => (0 <=? c) && (c <? 128)) l = true -> Forall ascii_range l.
Proof.
  intros H. apply Forall_forall. intros x Hx.
  rewrite forallb_forall in H. specialize (H x Hx).
  apply andb_prop in H as [H1 H2]. apply Z.leb_le in H1. apply Z.ltb_lt in H2.
  unfold ascii_range. lia.
Qed.

Lemma hex_digit_lower n : 0 <= n < 16 -> lower_hex (hex_digit n).
Proof.
  unfold hex_digit, lower_hex. intros Hn.
  destruct (Z.ltb_spec n 10); lia.
Qed.

Lemma lower_hex_ascii c : lower_hex c -> ascii_range c.
Proof. unfold lower_hex, ascii_range. lia. Qed.

Lemma hex_digit_mod_ascii n : ascii_range (hex_digit (n mod 16)).
Proof. apply lower_hex_ascii, hex_digit_lower, Z.mod_pos_bound. lia. Qed.

Lemma hex4_ascii n : Forall ascii_range (hex4 n).
Proof. unfold hex4. forall_lits; apply hex_digit_mod_ascii. Qed.

Lemma escape_char_ascii c : Forall ascii_range (escape_char c).
Proof.
  unfold escape_char.
  destruct (c =? 92); [apply ascii_checked; reflexivity |].
  destruct (c =? 34); [apply ascii_checked; reflexivity |].
  destruct ((32 <=? c) && (c <=? 126)) eqn:Hp.
  { apply andb_prop in Hp as [H1 H2]. apply Z.leb_le in H1, H2.
    forall_lits. unfold ascii_range. lia. }
  destruct (c =? 8); [apply ascii_checked; reflexivity |].
  destruct (c =? 12); [apply ascii_checked; reflexivity |].
  destruct (c =? 10); [apply ascii_checked; reflexivity |].
  destruct (c =? 13); [apply ascii_checked; reflexivity |].
  destruct (c =? 9); [apply ascii_checked; reflexivity |].
  assert (Hu : Forall ascii_range [92; 117]) by (apply ascii_checked; reflexivity).
  destruct (c <? 65536).
  - apply (Forall_app _ [92; 117]). split; [exact Hu | apply hex4_ascii].
  - apply (Forall_app _ [92; 117]). split; [exact Hu |].
    apply Forall_app. split; [apply hex4_ascii |].
    apply (Forall_app _ [92; 117]). split; [exact Hu | apply hex4_ascii].
Qed.

Lemma flat_map_forall (P : Z -> Prop) (f : Z -> list Z) (l : list Z) :
  (forall x, Forall P (f x)) -> Forall P (flat_map f l).
Proof.
  intros Hf. induction l as [| x r IH]; simpl; [constructor |].
  apply Forall_app. split; [apply Hf | exact IH].
Qed.

Lemma encode_basestring_ascii_ascii s : Forall ascii_range (encode_basestring_ascii s).
Proof.
  unfold encode_basestring_ascii. constructor; [unfold ascii_range; lia |].
  apply Forall_app. split; [apply flat_map_forall, escape_char_ascii |].
  forall_lits. unfold ascii_range. lia.
Qed.

Lemma digits_of_nat_ascii f n acc :
  0 <= n -> Forall ascii_range acc -> Forall ascii_range (digits_of_nat f n acc).
Proof.
  revert n acc. induction f as [| f IH]; intros n acc Hn Hacc; cbn [digits_of_nat];
    [exact Hacc |].
  destruct (Z.ltb_spec n 10).
  - constructor; [unfold ascii_range; lia | exact Hacc].
  - apply IH; [apply Z.div_pos; lia |].
    constructor; [| exact Hacc].
    pose proof (Z.mod_pos_bound n 10). unfold ascii_range. lia.
Qed.

Lemma int_repr_ascii z : Forall ascii_range (int_repr z).
Proof.
  unfold int_repr. destruct (Z.ltb_spec z 0).
  - constructor; [unfold ascii_range; lia |]. apply digits_of_nat_ascii; [lia | constructor].
  - apply digits_of_nat_ascii; [lia | constructor].
Qed.

Lemma join_ascii sep parts :
  Forall ascii_range sep -> Forall (Forall ascii_range) parts ->
  Forall ascii_range (join sep parts).
Proof.
  intros Hs. induction 1 as [| p r Hp Hr IH]; [constructor |].
  destruct r as [| q r]; [exact Hp |].
  change (Forall ascii_range (p ++ sep ++ join sep (q :: r))).
  apply Forall_app; split; [exact Hp |]. apply Forall_app; split; assumption.
Qed.

Lemma json_dumps_ascii v : floats_ascii v = true -> Forall ascii_range (json_dumps v).
Proof.
  induction v as [| b | z | t | s | l IH | d IH] using pyval_nested_ind; simpl; intros Hf.
  - apply ascii_checked; reflexivity.
  - destruct b; apply ascii_checked; reflexivity.
  - apply int_repr_ascii.
  - apply Forall_forall. rewrite forallb_forall in Hf. intros c Hc.
    specialize (Hf c Hc). apply andb_prop in Hf as [H1 H2].
    apply Z.leb_le in H1. apply Z.ltb_lt in H2. unfold ascii_range; lia.
  - apply encode_basestring_ascii_ascii.
  - rewrite forallb_forall in Hf.
    constructor; [unfold ascii_range; lia |].
    apply Forall_app. split; [| forall_lits; unfold ascii_range; lia].
    apply join_ascii; [apply ascii_checked; reflexivity |].
    apply Forall_map, Forall_forall. intros x Hx.
    rewrite Forall_forall in IH. exact (IH x Hx (Hf x Hx)).
  - rewrite forallb_forall in Hf.
    constructor; [unfold ascii_range; lia |].
    apply Forall_app. split; [| forall_lits; unfold ascii_range; lia].
    apply join_ascii; [apply ascii_checked; reflexivity |].
    apply Forall_map, Forall_forall. intros kv Hkv.
    rewrite Forall_forall in IH.
    change (Forall ascii_range
              (encode_basestring_ascii (fst kv) ++ colon_sep ++ json_dumps (snd kv))).
    apply Forall_app; split; [apply encode_basestring_ascii_ascii |].
    apply Forall_app; split; [apply ascii_checked; reflexivity |].
    exact (IH kv Hkv (Hf kv Hkv)).
Qed.

Lemma payload_ascii data :
  dict_floats_ascii data = true -> Forall ascii_range (payload_of data).
Proof.
  destruct data as [[| kv d] |]; intros Hf; [apply Forall_nil | | apply Forall_nil].
  apply json_dumps_ascii. exact Hf.
Qed.

(** With float texts in ASCII, signing fails exactly when the secret
    does not encode. *)
Lemma signature_floats_ascii self data :
  dict_floats_ascii data = true ->
  _generate_signature self (payload_of data)
  = match str_encode (secret_key self) with
    | Some k => Ret (hexdigest (hmac_sha256 k (b64encode (payload_of data))))
    | None => Raise UnicodeEncodeError
    end.
Proof.
  intros Hf. rewrite generate_signature_eq.
  rewrite (str_encode_ascii _ (payload_ascii data Hf)). reflexivity.
Qed.

(** *** The digest is 64 lowercase hex digits *)

Lemma round_length st kw : List.length (SHA256.round st kw) = List.length st.
Proof.
  destruct st as [| a [| b [| c [| d [| e [| f [| g [| h [| i r]]]]]]]]]; reflexivity.
Qed.

Lemma fold_round_length kws st :
  List.length (fold_left SHA256.round kws st) = List.length st.
Proof.
  revert st. induction kws as [| kw r IH]; intros st; simpl; [reflexivity |].
  rewrite IH. apply round_length.
Qed.

Lemma compress_length hs block : List.length (SHA256.compress hs block) = List.length hs.
Proof.
  unfold SHA256.compress. rewrite length_map, length_combine, fold_round_length.
  apply Nat.min_id.
Qed.

Lemma fold_compress_length bs hs :
  List.length (fold_left SHA256.compress bs hs) = List.length hs.
Proof.
  revert hs. induction bs as [| b r IH]; intros hs; simpl; [reflexivity |].
  rewrite IH. apply compress_length.
Qed.

Lemma be_bytes_length n x : List.length (SHA256.be_bytes n x) = n.
Proof. unfold SHA256.be_bytes. rewrite length_map. apply length_seq. Qed.

Lemma be_bytes_range n x : Forall byte_range (SHA256.be_bytes n x).
Proof.
  unfold SHA256.be_bytes. apply Forall_map, Forall_forall. intros i _.
  unfold byte_range. apply Z.mod_pos_bound. lia.
Qed.

Lemma hash_shape m :
  List.length (SHA256.hash m) = 32%nat /\ Forall byte_range (SHA256.hash m).
Proof.
  unfold SHA256.hash.
  assert (Hl : List.length (fold_left SHA256.compress
                 (SHA256.blocks (List.length (SHA256.pad m)) (SHA256.pad m)) SHA256.H0) = 8%nat).
  { rewrite fold_compress_length. reflexivity. }
  revert Hl.
  generalize (fold_left SHA256.compress
                (SHA256.blocks (List.length (SHA256.pad m)) (SHA256.pad m)) SHA256.H0).
  intros hs Hl. split.
  - assert (Hgen : forall l, List.length (flat_map (SHA256.be_bytes 4) l) = (4 * List.length l)%nat).
    { induction l as [| x r IH]; cbn [flat_map List.length]; [reflexivity |].
      rewrite length_app, be_bytes_length, IH. lia. }
    rewrite Hgen, Hl. reflexivity.
  - clear Hl. induction hs as [| x r IH]; cbn [flat_map]; [constructor |].
    apply Forall_app. split; [apply be_bytes_range | exact IH].
Qed.

Lemma hexdigest_shape b :
  Forall byte_range b ->
  List.length (hexdigest b) = (2 * List.length b)%nat /\ Forall lower_hex (hexdigest b).
Proof.
  induction 1 as [| x r Hx _ [IHl IHf]]; simpl; [split; [reflexivity | constructor] |].
  split; [rewrite IHl; lia |].
  unfold byte_range in Hx.
  constructor; [| constructor; [| exact IHf]]; apply hex_digit_lower.
  - rewrite Z.shiftr_div_pow2 by lia. norm_pow. Z.div_mod_to_equations. lia.
  - apply Z.mod_pos_bound. lia.
Qed.

Lemma signature_shape self p sig :
  _generate_signature self p = Ret sig ->
  List.length sig = 64%nat /\ Forall lower_hex sig.
Proof.
  rewrite generate_signature_eq.
  destruct (str_encode p) as [pb |], (str_encode (secret_key self)) as [k |]; try discriminate.
  intros H. injection H as <-.
  unfold hmac_sha256.
  destruct (hash_shape (map (Z.lxor 92) (key_block k)
              ++ SHA256.hash (map (Z.lxor 54) (key_block k) ++ b64encode pb))) as [Hl Hb].
  destruct (hexdigest_shape _ Hb) as [Hl' Hf]. rewrite Hl in Hl'. split; assumption.
Qed.

(** *** Exceptions *)







Lemma AccessCard_init_nondict c x :
  (forall d, x <> PDict d) -> AccessCard.init c x = Raise (no_get x).
Proof. intros Hx. destruct x; try reflexivity. exfalso. eapply Hx. reflexivity. Qed.

Lemma Template_init_nondict c x :
  (forall d, x <> PDict d) -> Template.init c x = Raise (no_get x).
Proof. intros Hx. destruct x; try reflexivity. exfalso. eapply Hx. reflexivity. Qed.

(** *** Requests of the operations *)

Lemma make_request_fields v server self m ep data prm :
  Forall (fun rq => method rq = m /\ json rq = json_arg data /\ params rq = prm)
    (fst (run server (_make_request v self m ep data prm))).
Proof.
  destruct (make_request_sent v server self m ep data prm) as [[sig [_ ->]] | [_ ->]].
  - constructor; [repeat split | constructor].
  - constructor.
Qed.

Lemma op_fields {B} v server self m ep data prm (f : pyval -> prog B) :
  (forall x, settled (f x)) ->
  Forall (fun rq => method rq = m /\ json rq = json_arg data /\ params rq = prm)
    (fst (run server (bind (_make_request v self m ep data prm) f))).
Proof.
  intros Hf. rewrite (run_then_settled v server self m ep data prm f Hf).
  apply make_request_fields.
Qed.

Lemma make_request_count v server self m ep data params :
  dict_floats_ascii data = true ->
  List.length (fst (run server (_make_request v self m ep data params)))
  = match str_encode (secret_key self) with Some _ => 1%nat | None => 0%nat end.
Proof.
  intros Hf. unfold _make_request. rewrite (signature_floats_ascii self data Hf).
  destruct (str_encode (secret_key self)); simpl; [| reflexivity].
  set (t := server _).
  pose proof (settled_run server _ (handle_transport_settled t)) as H0.
  destruct (run server (handle_transport t)) as [sent r]; simpl in *; subst; reflexivity.
Qed.

Lemma op_count {B} v server self m ep data params (f : pyval -> prog B) :
  (forall x, settled (f x)) -> dict_floats_ascii data = true ->
  List.length (fst (run server (bind (_make_request v self m ep data params) f)))
  = match str_encode (secret_key self) with Some _ => 1%nat | None => 0%nat end.
Proof.
  intros Hf Hd. rewrite (run_then_settled v server self m ep data params f Hf).
  apply make_request_count. exact Hd.
Qed.

(** The one answer of a constant server with a [2xx] status and a JSON body. *)
Lemma answer_success s body x rq :
  200 <= s < 300 -> json_loads body = Some x ->
  snd (run (answer s body) (handle_transport (answer s body rq))) = inl x.
Proof.
  intros Hs Hj. unfold answer at 2. rewrite handle_success by (simpl; lia).
  unfold response_json. simpl. rewrite Hj. reflexivity.
Qed.

(** *** Slashes *)

Lemma lstrip_slash_idem l : lstrip_slash (lstrip_slash l) = lstrip_slash l.
Proof.
  induction l as [| c r IH]; simpl; [reflexivity |].
  destruct (Z.eqb_spec c 47); [exact IH |].
  simpl. destruct (Z.eqb_spec c 47); [contradiction | reflexivity].
Qed.

Lemma rstrip_slash_idem b : rstrip_slash (rstrip_slash b) = rstrip_slash b.
Proof.
  unfold rstrip_slash. rewrite rev_involutive, lstrip_slash_idem. reflexivity.
Qed.

(** *** The properties *)

(** A transport failure of the request (connection refused, timeout, ...)
    is re-raised as [AccessGridError(f"Request failed: {e}")]. *)
Theorem transport_failure_wrapped :
  forall v server self m ep data prm rq d,
  In rq (fst (run server (_make_request v self m ep data prm))) ->
  server rq = TransportError d ->
  snd (run server (_make_request v self m ep data prm))
  = inr (AccessGridError (RequestFailed (TransportFailure d))).
Proof.
  intros v server self m ep data prm rq d Hin Ht.
  rewrite (make_request_answer v server self m ep data prm rq Hin), Ht. reflexivity.
Qed.

Lemma transport_failure_wrapped_witness :
  snd (run (unreachable (py "timed out"))
         (_make_request (py "1.0") acct_1 (py "GET") (py "/v1/console/card-templates/t1") None None))
  = inr (AccessGridError (RequestFailed (TransportFailure (py "timed out")))).
Proof.
  apply (transport_failure_wrapped (py "1.0") (unreachable (py "timed out")) acct_1 (py "GET")
           (py "/v1/console/card-templates/t1") None None
           (first_sent (unreachable (py "timed out"))
              (_make_request (py "1.0") acct_1 (py "GET")
                 (py "/v1/console/card-templates/t1") None None))).
  - vm_compute. left. reflexivity.
  - reflexivity.
Defined.

(** A non-empty body that is not JSON, under any status but 401 and 402
    (a success as well as an error status), raises
    [AccessGridError(f"Request failed: {e}")] for the [JSONDecodeError]
    of [response.json()], not the [API request failed] error with the
    raw text. *)
Theorem non_json_body_request_failed :
  forall v server self m ep data prm rq r,
  In rq (fst (run server (_make_request v self m ep data prm))) ->
  server rq = Response r ->
  status_code r <> 401 -> status_code r <> 402 ->
  text r <> [] -> json_loads (text r) = None ->
  snd (run server (_make_request v self m ep data prm))
  = inr (AccessGridError (RequestFailed (JSONDecodeError (text r)))).
Proof.
  intros v server self m ep data prm rq r Hin Hr H401 H402 Hne Hj.
  rewrite (make_request_answer v server self m ep data prm rq Hin), Hr. simpl.
  unfold handle_response.
  apply Z.eqb_neq in H401, H402. rewrite H401, H402.
  destruct (negb _).
  - destruct (text r) as [| c t] eqn:Ht; [contradiction |]. simpl.
    unfold response_json. rewrite Ht, Hj. reflexivity.
  - unfold response_json. rewrite Hj. reflexivity.
Qed.

Lemma non_json_body_request_failed_witness :
  snd (run (answer 500 (py "Internal Server Error"))
         (_make_request (py "1.0") acct_1 (py "POST") (py "/v1/key-cards") (Some jane) None))
  = inr (AccessGridError (RequestFailed (JSONDecodeError (py "Internal Server Error")))).
Proof.
  apply (non_json_body_request_failed (py "1.0") (answer 500 (py "Internal Server Error")) acct_1
           (py "POST") (py "/v1/key-cards") (Some jane) None
           (first_sent (answer 500 (py "Internal Server Error"))
              (_make_request (py "1.0") acct_1 (py "POST") (py "/v1/key-cards") (Some jane) None))
           (mk_response 500 (py "Internal Server Error"))).
  - vm_compute. left. reflexivity.
  - reflexivity.
  - discriminate.
  - discriminate.
  - discriminate.
  - vm_compute. reflexivity.
Defined.

(** An error status (outside [200, 300), not 401 or 402) whose body is
    JSON but no object (a list, a string, a number, [null], ...) raises
    [AttributeError] from [error_data.get], not an [AccessGridError]. *)
Theorem error_body_not_object :
  forall v server self m ep data prm rq r x,
  In rq (fst (run server (_make_request v self m ep data prm))) ->
  server rq = Response r ->
  ~ (200 <= status_code r < 300) -> status_code r <> 401 -> status_code r <> 402 ->
  json_loads (text r) = Some x -> (forall d, x <> PDict d) ->
  snd (run server (_make_request v self m ep data prm)) = inr (no_get x).
Proof.
  intros v server self m ep data prm rq r x Hin Hr H2xx H401 H402 Hj Hx.
  rewrite (make_request_answer v server self m ep data prm rq Hin), Hr. simpl.
  unfold handle_response.
  apply Z.eqb_neq in H401, H402. rewrite H401, H402.
  replace (negb ((200 <=? status_code r) && (status_code r <? 300))) with true
    by (destruct (Z.leb_spec 200 (status_code r)), (Z.ltb_spec (status_code r) 300);
        simpl; auto; lia).
  destruct (text r) as [| c t] eqn:Ht.
  { rewrite json_loads_empty in Hj. discriminate. }
  simpl. unfold response_json. rewrite Ht, Hj. simpl.
  destruct x; try reflexivity. exfalso. eapply Hx. reflexivity.
Qed.

Lemma error_body_not_object_witness :
  snd (run (answer 400 (pyj "['bad request']"))
         (_make_request (py "1.0") acct_1 (py "GET") (py "/v1/console/card-templates/t1") None None))
  = inr (no_get (PList [PStr (py "bad request")])).
Proof.
  apply (error_body_not_object (py "1.0") (answer 400 (pyj "['bad request']")) acct_1 (py "GET")
           (py "/v1/console/card-templates/t1") None None
           (first_sent (answer 400 (pyj "['bad request']"))
              (_make_request (py "1.0") acct_1 (py "GET")
                 (py "/v1/console/card-templates/t1") None None))
           (mk_response 400 (pyj "['bad request']"))).
  - vm_compute. left. reflexivity.
  - reflexivity.
  - simpl. lia.
  - discriminate.
  - discriminate.
  - vm_compute. reflexivity.
  - intros d Hd. discriminate Hd.
Defined.

(** A [2xx] answer with a JSON body returns the parsed value, whatever
    its type; [get_logs] hands it to the caller as it is (a list as well
    as a dict). *)
Theorem success_body_returned :
  (forall v server self m ep data prm rq r x,
     In rq (fst (run server (_make_request v self m ep data prm))) ->
     server rq = Response r -> 200 <= status_code r < 300 -> json_loads (text r) = Some x ->
     snd (run server (_make_request v self m ep data prm)) = inl x)
  /\ (forall v server self template_id kwargs rq r x,
     In rq (fst (run server (Console_get_logs v self template_id kwargs))) ->
     server rq = Response r -> 200 <= status_code r < 300 -> json_loads (text r) = Some x ->
     snd (run server (Console_get_logs v self template_id kwargs)) = inl x).
Proof.
  assert (H : forall v server self m ep data prm rq r x,
     In rq (fst (run server (_make_request v self m ep data prm))) ->
     server rq = Response r -> 200 <= status_code r < 300 -> json_loads (text r) = Some x ->
     snd (run server (_make_request v self m ep data prm)) = inl x).
  { intros v server self m ep data prm rq r x Hin Hr Hs Hj.
    rewrite (make_request_answer v server self m ep data prm rq Hin), Hr.
    rewrite (handle_success r Hs). unfold response_json. rewrite Hj. reflexivity. }
  split; [exact H |].
  intros v server self template_id kwargs. unfold Console_get_logs, _get. apply H.
Qed.

Lemma success_body_returned_witness :
  snd (run (answer 200 (pyj "[{'event': 'issued'}]"))
         (Console_get_logs (py "1.0") (console acct_1) (py "t1") []))
  = inl (PList [PDict [(py "event", PStr (py "issued"))]]).
Proof.
  apply (proj2 success_body_returned (py "1.0") (answer 200 (pyj "[{'event': 'issued'}]"))
           (console acct_1) (py "t1") []
           (first_sent (answer 200 (pyj "[{'event': 'issued'}]"))
              (Console_get_logs (py "1.0") (console acct_1) (py "t1") []))
           (mk_response 200 (pyj "[{'event': 'issued'}]"))).
  - vm_compute. left. reflexivity.
  - reflexivity.
  - simpl. lia.
  - vm_compute. reflexivity.
Defined.

(** The operations that build an [AccessCard] or a [Template] raise
    [AttributeError] when a [2xx] answer's JSON body is no object, after
    the one request. *)
Theorem entity_needs_object :
  forall s body x, 200 <= s < 300 -> json_loads body = Some x -> (forall d, x <> PDict d) ->
  (forall v self kwargs rq,
     In rq (fst (run (answer s body) (AccessCards_issue v self kwargs))) ->
     snd (run (answer s body) (AccessCards_issue v self kwargs)) = inr (no_get x))
  /\ (forall v self card_id kwargs rq,
     In rq (fst (run (answer s body) (AccessCards_update v self card_id kwargs))) ->
     snd (run (answer s body) (AccessCards_update v self card_id kwargs)) = inr (no_get x))
  /\ (forall v self card_id action rq,
     In rq (fst (run (answer s body) (AccessCards_manage v self card_id action))) ->
     snd (run (answer s body) (AccessCards_manage v self card_id action)) = inr (no_get x))
  /\ (forall v self kwargs rq,
     In rq (fst (run (answer s body) (Console_create_template v self kwargs))) ->
     snd (run (answer s body) (Console_create_template v self kwargs)) = inr (no_get x))
  /\ (forall v self template_id kwargs rq,
     In rq (fst (run (answer s body) (Console_update_template v self template_id kwargs))) ->
     snd (run (answer s body) (Console_update_template v self template_id kwargs)) = inr (no_get x))
  /\ (forall v self template_id rq,
     In rq (fst (run (answer s body) (Console_read_template v self template_id))) ->
     snd (run (answer s body) (Console_read_template v self template_id)) = inr (no_get x)).
Proof.
  intros s body x Hs Hj Hx.
  assert (Hc : forall c, snd (run (answer s body) (AccessCard.init c x)) = inr (no_get x))
    by (intros c; rewrite AccessCard_init_nondict by exact Hx; reflexivity).
  assert (Ht : forall c, snd (run (answer s body) (Template.init c x)) = inr (no_get x))
    by (intros c; rewrite Template_init_nondict by exact Hx; reflexivity).
  repeat split; intros;
    unfold AccessCards_issue, AccessCards_update, AccessCards_manage, Console_create_template,
      Console_update_template, Console_read_template, _post, _put, _get in *;
    match goal with
    | Hin : In ?rq _ |- _ =>
        erewrite (op_result _ _ _ _ _ _ _ _ rq); [| | exact Hin];
        [rewrite (answer_success s body x rq Hs Hj); first [apply Hc | apply Ht]
        | intros; first [apply AccessCard_init_settled | apply Template_init_settled]]
    end.
Qed.

Lemma entity_needs_object_witness :
  snd (run (answer 200 (pyj "['c1']")) (AccessCards_issue (py "1.0") (access_cards acct_1) jane))
  = inr (no_get (PList [PStr (py "c1")])).
Proof.
  apply (proj1 (entity_needs_object 200 (pyj "['c1']") (PList [PStr (py "c1")])
                  ltac:(lia) ltac:(vm_compute; reflexivity) ltac:(intros d Hd; discriminate Hd))
           (py "1.0") (access_cards acct_1) jane
           (first_sent (answer 200 (pyj "['c1']"))
              (AccessCards_issue (py "1.0") (access_cards acct_1) jane))).
  vm_compute. left. reflexivity.
Defined.

(** For keyword arguments [json.dumps] serializes, every operation sends
    one request when the secret key encodes to UTF-8 and none when it
    does not; never a retry or a second call.  (The hypothesis on the
    float texts holds of every Python float.) *)
Theorem one_request_per_call :
  (forall v server self kwargs, floats_ascii (PDict kwargs) = true ->
     List.length (fst (run server (AccessCards_issue v self kwargs)))
     = match str_encode (secret_key (AccessCards._client self)) with Some _ => 1%nat | None => 0%nat end)
  /\ (forall v server self card_id kwargs, floats_ascii (PDict kwargs) = true ->
     List.length (fst (run server (AccessCards_update v self card_id kwargs)))
     = match str_encode (secret_key (AccessCards._client self)) with Some _ => 1%nat | None => 0%nat end)
  /\ (forall v server self card_id action,
     List.length (fst (run server (AccessCards_manage v self card_id action)))
     = match str_encode (secret_key (AccessCards._client self)) with Some _ => 1%nat | None => 0%nat end)
  /\ (forall v server self kwargs, floats_ascii (PDict kwargs) = true ->
     List.length (fst (run server (Console_create_template v self kwargs)))
     = match str_encode (secret_key (Console._client self)) with Some _ => 1%nat | None => 0%nat end)
  /\ (forall v server self template_id kwargs, floats_ascii (PDict kwargs) = true ->
     List.length (fst (run server (Console_update_template v self template_id kwargs)))
     = match str_encode (secret_key (Console._client self)) with Some _ => 1%nat | None => 0%nat end)
  /\ (forall v server self template_id,
     List.length (fst (run server (Console_read_template v self template_id)))
     = match str_encode (secret_key (Console._client self)) with Some _ => 1%nat | None => 0%nat end)
  /\ (forall v server self template_id kwargs,
     List.length (fst (run server (Console_get_logs v self template_id kwargs)))
     = match str_encode (secret_key (Console._client self)) with Some _ => 1%nat | None => 0%nat end).
Proof.
  repeat split; intros;
    unfold AccessCards_issue, AccessCards_update, AccessCards_manage, Console_create_template,
      Console_update_template, Console_read_template, Console_get_logs, _post, _put, _get;
    first
      [ apply op_count; [intros; first [apply AccessCard_init_settled | apply Template_init_settled]
                        | assumption || reflexivity]
      | apply make_request_count; reflexivity ].
Qed.

Lemma one_request_per_call_witness :
  List.length (fst (run (answer 200 (py "{}")) (AccessCards_issue (py "1.0") (access_cards acct_1) jane)))
  = 1%nat.
Proof.
  rewrite (proj1 one_request_per_call (py "1.0") (answer 200 (py "{}")) (access_cards acct_1) jane
             eq_refl).
  reflexivity.
Defined.

(** The JSON text that is signed and sent is pure ASCII
    ([ensure_ascii]: every other character is written as a [\u] escape,
    and a float is written as its ASCII [repr]), so its UTF-8 encoding
    never fails and is the text itself. *)
Theorem json_payload_ascii :
  forall data, dict_floats_ascii data = true ->
  Forall ascii_range (payload_of data) /\ str_encode (payload_of data) = Some (payload_of data).
Proof.
  intros data Hf. pose proof (payload_ascii data Hf) as Ha.
  split; [exact Ha | apply str_encode_ascii; exact Ha].
Qed.

Lemma json_payload_ascii_witness :
  payload_of (Some [(py "full_name", PStr [74; 111; 115; 233])])
  = pyj "{'full_name': 'Jos\u00e9'}"
  /\ str_encode (payload_of (Some [(py "full_name", PStr [74; 111; 115; 233])]))
     = Some (payload_of (Some [(py "full_name", PStr [74; 111; 115; 233])])).
Proof.
  split; [vm_compute; reflexivity |].
  apply (json_payload_ascii (Some [(py "full_name", PStr [74; 111; 115; 233])])).
  reflexivity.
Defined.

(** For data [json.dumps] serializes, a request raises
    [UnicodeEncodeError] before anything is sent exactly when the secret
    key does not encode to UTF-8 (a lone surrogate); it is not wrapped in
    an [AccessGridError]. *)
Theorem secret_unencodable :
  forall v server self m ep data prm, dict_floats_ascii data = true ->
  (run server (_make_request v self m ep data prm) = ([], inr UnicodeEncodeError)
   <-> str_encode (secret_key self) = None).
Proof.
  intros v server self m ep data prm Hf. unfold _make_request.
  rewrite (signature_floats_ascii self data Hf).
  destruct (str_encode (secret_key self)); simpl; [| split; reflexivity].
  destruct (run server (handle_transport _)). split; discriminate.
Qed.

Lemma secret_unencodable_witness :
  run (answer 200 (py "{}"))
      (_make_request (py "1.0") (mk_AccessGrid (py "acct_1") [55296] default_base_url)
         (py "POST") (py "/v1/key-cards") (Some jane) None)
  = ([], inr UnicodeEncodeError)
  /\ isinstance UnicodeEncodeError "AccessGridError" = false.
Proof.
  split; [| reflexivity].
  apply (proj2 (secret_unencodable (py "1.0") (answer 200 (py "{}"))
                  (mk_AccessGrid (py "acct_1") [55296] default_base_url)
                  (py "POST") (py "/v1/key-cards") (Some jane) None eq_refl)).
  reflexivity.
Defined.

(** Every request carries exactly the four headers [X-ACCT-ID] (the
    account id), [X-PAYLOAD-SIG], [Content-Type: application/json] and
    [User-Agent: accessgrid.py @ v<version>], in this order, and the
    signature is 64 lowercase hexadecimal digits. *)
Theorem request_headers :
  forall v server self m ep data prm,
  Forall (fun rq => exists sig,
            headers rq = [(py "X-ACCT-ID", account_id self); (py "X-PAYLOAD-SIG", sig);
                          (py "Content-Type", py "application/json");
                          (py "User-Agent", py "accessgrid.py @ v" ++ v)]
            /\ List.length sig = 64%nat /\ Forall lower_hex sig)
    (fst (run server (_make_request v self m ep data prm))).
Proof.
  intros v server self m ep data prm.
  destruct (make_request_sent v server self m ep data prm) as [[sig [Hs ->]] | [_ ->]];
    [| constructor].
  constructor; [| constructor].
  exists sig. split; [reflexivity |]. exact (signature_shape self _ sig Hs).
Qed.



(** The method, body and query of each operation's request: the keyword
    arguments go as JSON body (none when empty) with [POST] for a new
    card or template and [PUT] for an update, [read_template] sends
    neither body nor query, and [get_logs] sends them as query
    parameters with [GET] and no body; [_patch], which no operation
    calls, would send its data with [PATCH]. *)
Theorem operation_requests :
  (forall v server self kwargs,
     Forall (fun rq => method rq = py "POST"
                       /\ json rq = match kwargs with [] => None | _ => Some (PDict kwargs) end
                       /\ params rq = None)
       (fst (run server (AccessCards_issue v self kwargs))))
  /\ (forall v server self card_id kwargs,
     Forall (fun rq => method rq = py "PUT"
                       /\ json rq = match kwargs with [] => None | _ => Some (PDict kwargs) end
                       /\ params rq = None)
       (fst (run server (AccessCards_update v self card_id kwargs))))
  /\ (forall v server self kwargs,
     Forall (fun rq => method rq = py "POST"
                       /\ json rq = match kwargs with [] => None | _ => Some (PDict kwargs) end
                       /\ params rq = None)
       (fst (run server (Console_create_template v self kwargs))))
  /\ (forall v server self template_id kwargs,
     Forall (fun rq => method rq = py "PUT"
                       /\ json rq = match kwargs with [] => None | _ => Some (PDict kwargs) end
                       /\ params rq = None)
       (fst (run server (Console_update_template v self template_id kwargs))))
  /\ (forall v server self template_id,
     Forall (fun rq => method rq = py "GET" /\ json rq = None /\ params rq = None)
       (fst (run server (Console_read_template v self template_id))))
  /\ (forall v server self template_id kwargs,
     Forall (fun rq => method rq = py "GET" /\ json rq = None /\ params rq = Some kwargs)
       (fst (run server (Console_get_logs v self template_id kwargs))))
  /\ (forall v server self endpoint data,
     Forall (fun rq => method rq = py "PATCH"
                       /\ json rq = match data with [] => None | _ => Some (PDict data) end
                       /\ params rq = None)
       (fst (run server (_patch v self endpoint data)))).
Proof.
  assert (Hj : forall kwargs, json_arg (Some kwargs)
                 = match kwargs with [] => None | _ => Some (PDict kwargs) end)
    by (intros [| kv d]; reflexivity).
  repeat split; intros *;
    unfold AccessCards_issue, AccessCards_update, Console_create_template,
      Console_update_template, Console_read_template, Console_get_logs, _post, _put, _get, _patch;
    first
      [ eapply Forall_impl; [| apply op_fields;
          intros; first [apply AccessCard_init_settled | apply Template_init_settled]]
      | eapply Forall_impl; [| apply make_request_fields] ];
    simpl; intros rq [Hm [Hb Hp]]; rewrite ?Hj in Hb; auto.
Qed.

(** Constructing a client from the attributes of a constructed client
    gives the same client: [base_url.rstrip('/')] is idempotent and the
    kept id and key are non-empty. *)
Theorem init_roundtrip :
  forall a s b c, AccessGrid_init a s b = inl c ->
  AccessGrid_init (Some (account_id c)) (Some (secret_key c)) (base_url c) = inl c.
Proof.
  intros a s b c H.
  destruct a as [[| x a] |]; try discriminate.
  destruct s as [[| y s] |]; try discriminate.
  injection H as <-. simpl. rewrite rstrip_slash_idem. reflexivity.
Qed.

Lemma init_roundtrip_witness :
  AccessGrid_init (Some (py "acct_1")) (Some (py "s3cret")) (py "https://api.example.com")
  = inl (mk_AccessGrid (py "acct_1") (py "s3cret") (py "https://api.example.com")).
Proof.
  apply (init_roundtrip (Some (py "acct_1")) (Some (py "s3cret")) (py "https://api.example.com//")
           (mk_AccessGrid (py "acct_1") (py "s3cret") (py "https://api.example.com"))).
  vm_compute. reflexivity.
Defined.

(** *** The JSON body read back *)

Lemma hex_val_digit n : 0 <= n < 16 -> hex_val (hex_digit n) = Some n.
Proof.
  intros Hn. unfold hex_digit, hex_val, is_digit.
  destruct (Z.ltb_spec n 10).
  - destruct (Z.leb_spec 48 (48 + n)); [| lia].
    destruct (Z.leb_spec (48 + n) 57); [| lia]. cbn [andb]. f_equal. lia.
  - destruct (Z.leb_spec 48 (87 + n)); [| lia].
    destruct (Z.leb_spec (87 + n) 57); [lia |]. cbn [andb].
    destruct (Z.leb_spec 97 (87 + n)); [| lia].
    destruct (Z.leb_spec (87 + n) 102); [| lia]. cbn [andb]. f_equal. lia.
Qed.

Lemma hex4_val_hex4 n :
  0 <= n < 65536 ->
  match hex4 n with
  | [a; b; c; d] => hex4_val a b c d = Some n
  | _ => False
  end.
Proof.
  intros Hn. unfold hex4, hex4_val.
  rewrite !hex_val_digit by (apply Z.mod_pos_bound; lia).
  f_equal. rewrite !Z.shiftr_div_pow2 by lia. norm_pow.
  Z.div_mod_to_equations. lia.
Qed.

Lemma lor_low k : 0 <= k < 1024 -> Z.lor 55296 k = 55296 + k /\ Z.lor 56320 k = 56320 + k.
Proof.
  intros Hk.
  assert (Hall : forallb (fun k => (Z.lor 55296 k =? 55296 + k) && (Z.lor 56320 k =? 56320 + k))
                   (map Z.of_nat (seq 0 1024)) = true) by (vm_compute; reflexivity).
  rewrite forallb_forall in Hall.
  assert (Hin : In k (map Z.of_nat (seq 0 1024))).
  { apply in_map_iff. exists (Z.to_nat k). split; [lia |]. apply in_seq. lia. }
  specialize (Hall k Hin). apply andb_prop in Hall as [H1 H2].
  apply Z.eqb_eq in H1, H2. split; assumption.
Qed.

Lemma scalar_range c : scalar c = true -> 0 <= c < 1114112 /\ ~ (55296 <= c <= 57343).
Proof.
  unfold scalar. intros H. apply andb_prop in H as [H1 H2]. apply andb_prop in H1 as [H0 H1].
  apply Z.leb_le in H0. apply Z.ltb_lt in H1. apply negb_true_iff in H2.
  split; [lia |]. intros [Ha Hb].
  apply Z.leb_le in Ha, Hb. rewrite Ha, Hb in H2. discriminate.
Qed.

Lemma scan_pair h1 h2 h3 h4 g1 g2 g3 g4 r acc u u2 :
  hex4_val h1 h2 h3 h4 = Some u -> 55296 <= u <= 56319 ->
  hex4_val g1 g2 g3 g4 = Some u2 -> 56320 <= u2 <= 57343 ->
  scanstring (92 :: 117 :: h1 :: h2 :: h3 :: h4 :: 92 :: 117 :: g1 :: g2 :: g3 :: g4 :: r) acc
  = scanstring r ((65536 + Z.shiftl (u - 55296) 10 + (u2 - 56320)) :: acc).
Proof.
  intros H1 R1 H2 R2.
  remember (92 :: 117 :: g1 :: g2 :: g3 :: g4 :: r) as r2 eqn:E.
  cbn [scanstring].
  rewrite H1.
  replace ((55296 <=? u) && (u <=? 56319)) with true
    by (symmetry; apply andb_true_iff; split; apply Z.leb_le; lia).
  subst r2. rewrite H2.
  replace ((56320 <=? u2) && (u2 <=? 57343)) with true
    by (symmetry; apply andb_true_iff; split; apply Z.leb_le; lia).
  reflexivity.
Qed.

Lemma scan_escape c t acc :
  scalar c = true -> scanstring (escape_char c ++ t) acc = scanstring t (c :: acc).
Proof.
  intros Hs. apply scalar_range in Hs as [Hr Hsur].
  unfold escape_char.
  destruct (Z.eqb_spec c 92); [subst; reflexivity |].
  destruct (Z.eqb_spec c 34); [subst; reflexivity |].
  destruct ((32 <=? c) && (c <=? 126)) eqn:Hp.
  { apply andb_prop in Hp as [H1 H2]. apply Z.leb_le in H1, H2.
    cbn [app scanstring].
    destruct (Z.eqb_spec c 34); [lia |]. destruct (Z.eqb_spec c 92); [lia |].
    destruct (Z.ltb_spec c 32); [lia |]. reflexivity. }
  destruct (Z.eqb_spec c 8); [subst; reflexivity |].
  destruct (Z.eqb_spec c 12); [subst; reflexivity |].
  destruct (Z.eqb_spec c 10); [subst; reflexivity |].
  destruct (Z.eqb_spec c 13); [subst; reflexivity |].
  destruct (Z.eqb_spec c 9); [subst; reflexivity |].
  destruct (Z.ltb_spec c 65536).
  - pose proof (hex4_val_hex4 c ltac:(lia)) as Hh.
    destruct (hex4 c) as [| a [| b [| c' [| d [| ? ?]]]]]; try contradiction.
    cbn [app scanstring]. rewrite Hh.
    replace ((55296 <=? c) && (c <=? 56319)) with false; [reflexivity |].
    symmetry. apply not_true_iff_false. intros Hb.
    apply andb_prop in Hb as [H1 H2]. apply Z.leb_le in H1, H2. lia.
  - set (w := c - 65536).
    assert (Hn : 0 <= w < 1048576) by (unfold w; lia).
    assert (Hhi : Z.land (Z.shiftr w 10) 1023 = w / 1024).
    { change 1023 with (Z.ones 10). rewrite Z.land_ones by lia.
      rewrite Z.shiftr_div_pow2 by lia. norm_pow. apply Z.mod_small.
      split; [apply Z.div_pos; lia | apply Z.div_lt_upper_bound; lia]. }
    assert (Hlo : Z.land w 1023 = w mod 1024).
    { change 1023 with (Z.ones 10). rewrite Z.land_ones by lia. reflexivity. }
    assert (Hq : 0 <= w / 1024 < 1024)
      by (split; [apply Z.div_pos; lia | apply Z.div_lt_upper_bound; lia]).
    assert (Hm : 0 <= w mod 1024 < 1024) by (apply Z.mod_pos_bound; lia).
    rewrite Hhi, Hlo, (proj1 (lor_low _ Hq)), (proj2 (lor_low _ Hm)).
    pose proof (hex4_val_hex4 (55296 + w / 1024) ltac:(lia)) as Hh1.
    pose proof (hex4_val_hex4 (56320 + w mod 1024) ltac:(lia)) as Hh2.
    destruct (hex4 (55296 + w / 1024)) as [| a [| b [| c' [| d [| ? ?]]]]]; try contradiction.
    destruct (hex4 (56320 + w mod 1024)) as [| a2 [| b2 [| c2 [| d2 [| ? ?]]]]]; try contradiction.
    cbn [app]. rewrite (scan_pair _ _ _ _ _ _ _ _ _ _ _ _ Hh1 ltac:(lia) Hh2 ltac:(lia)).
    f_equal. f_equal. rewrite Z.shiftl_mul_pow2 by lia. norm_pow.
    unfold w. Z.div_mod_to_equations. lia.
Qed.


Lemma scan_escaped s t acc :
  forallb scalar s = true ->
  scanstring (flat_map escape_char s ++ 34 :: t) acc = Some (rev acc ++ s, t).
Proof.
  revert acc. induction s as [| c r IH]; intros acc Hs; simpl in Hs.
  - simpl. rewrite app_nil_r. reflexivity.
  - apply andb_prop in Hs as [Hc Hr].
    simpl flat_map. rewrite <- app_assoc, scan_escape by exact Hc.
    rewrite IH by exact Hr. simpl. rewrite <- app_assoc. reflexivity.
Qed.

Lemma is_digit_cases d :
  is_digit d = true ->
  d = 48 \/ d = 49 \/ d = 50 \/ d = 51 \/ d = 52 \/ d = 53 \/ d = 54 \/ d = 55 \/ d = 56 \/ d = 57.
Proof.
  unfold is_digit. intros H. apply andb_prop in H as [H1 H2]. apply Z.leb_le in H1, H2. lia.
Qed.

Lemma is_digit_lit n : 0 <= n < 10 -> is_digit (48 + n) = true.
Proof.
  intros Hn. unfold is_digit. apply andb_true_iff. split; apply Z.leb_le; lia.
Qed.

Lemma digits_step f n acc :
  digits_of_nat (S f) n acc
  = if n <? 10 then (48 + n) :: acc else digits_of_nat f (n / 10) ((48 + n mod 10) :: acc).
Proof. reflexivity. Qed.

Lemma digits_spec f : forall n acc,
  0 <= n < 10 ^ Z.of_nat (S f) ->
  exists dd, digits_of_nat (S f) n acc = dd ++ acc /\ dd <> []
    /\ Forall (fun d => is_digit d = true) dd /\ digits_value dd = n
    /\ (hd 0 dd = 48 -> dd = [48]).
Proof.
  induction f as [| f IH]; intros n acc Hn; rewrite digits_step.
  - simpl in Hn. destruct (Z.ltb_spec n 10); [| lia].
    exists [48 + n]. split; [reflexivity |]. split; [discriminate |].
    split; [constructor; [apply is_digit_lit; lia | constructor] |].
    split; [unfold digits_value; cbn [fold_left]; lia |].
    simpl. intros Hh0. rewrite Hh0. reflexivity.
  - destruct (Z.ltb_spec n 10).
    + exists [48 + n]. split; [reflexivity |]. split; [discriminate |].
      split; [constructor; [apply is_digit_lit; lia | constructor] |].
      split; [unfold digits_value; cbn [fold_left]; lia |].
      simpl. intros Hh0. rewrite Hh0. reflexivity.
    + assert (Hb : 0 <= n / 10 < 10 ^ Z.of_nat (S f)).
      { rewrite Nat2Z.inj_succ, Z.pow_succ_r in Hn by lia.
        split; [apply Z.div_pos; lia | apply Z.div_lt_upper_bound; lia]. }
      destruct (IH (n / 10) ((48 + n mod 10) :: acc) Hb) as [dd [He [Hne [Hd [Hv Hh]]]]].
      pose proof (Z.mod_pos_bound n 10 ltac:(lia)) as Hm.
      exists (dd ++ [48 + n mod 10]).
      split; [rewrite He, <- app_assoc; reflexivity |].
      split; [destruct dd; [contradiction | discriminate] |].
      split; [apply Forall_app; split; [exact Hd | constructor; [apply is_digit_lit; lia | constructor]] |].
      split.
      * unfold digits_value in *. rewrite fold_left_app, Hv. cbn [fold_left].
        pose proof (Z.div_mod n 10 ltac:(lia)). lia.
      * destruct dd as [| d0 ds]; [contradiction |]. simpl. intros Hz0.
        specialize (Hh Hz0). injection Hh as -> ->.
        unfold digits_value in Hv. cbn [fold_left] in Hv.
        assert (1 <= n / 10) by (apply Z.div_le_lower_bound; lia). lia.
Qed.

Lemma log2_up_bound n : 0 <= n -> n < 10 ^ (Z.log2_up n + 1).
Proof.
  intros Hn. pose proof (Z.log2_up_nonneg n) as H0.
  assert (H2 : n <= 2 ^ Z.log2_up n).
  { destruct (Z.lt_trichotomy n 1) as [H | [H | H]].
    - pose proof (Z.pow_pos_nonneg 2 (Z.log2_up n) ltac:(lia) H0). lia.
    - subst. reflexivity.
    - apply Z.log2_up_spec. exact H. }
  assert (H3 : 2 ^ Z.log2_up n <= 10 ^ Z.log2_up n) by (apply Z.pow_le_mono_l; lia).
  assert (H4 : 10 ^ Z.log2_up n < 10 ^ (Z.log2_up n + 1)) by (apply Z.pow_lt_mono_r; lia).
  lia.
Qed.

Lemma digits_of_nonneg n :
  0 <= n ->
  exists dd, digits_of_nat (Z.to_nat (Z.log2_up n + 1)) n [] = dd /\ dd <> []
    /\ Forall (fun d => is_digit d = true) dd /\ digits_value dd = n
    /\ (hd 0 dd = 48 -> dd = [48]).
Proof.
  intros Hn. pose proof (Z.log2_up_nonneg n) as H0.
  replace (Z.to_nat (Z.log2_up n + 1)) with (S (Z.to_nat (Z.log2_up n))) by lia.
  destruct (digits_spec (Z.to_nat (Z.log2_up n)) n [])
    as [dd [He Hr]]; [| exists dd; rewrite He, app_nil_r; split; [reflexivity | exact Hr]].
  split; [exact Hn |].
  replace (Z.of_nat (S (Z.to_nat (Z.log2_up n)))) with (Z.log2_up n + 1) by lia.
  apply log2_up_bound. exact Hn.
Qed.

Lemma int_repr_digits z :
  exists (neg : bool) dd, int_repr z = (if neg then [45] else []) ++ dd /\ dd <> []
    /\ Forall (fun d => is_digit d = true) dd /\ (hd 0 dd = 48 -> dd = [48])
    /\ z = (if neg then - digits_value dd else digits_value dd).
Proof.
  unfold int_repr. destruct (Z.ltb_spec z 0).
  - destruct (digits_of_nonneg (- z) ltac:(lia)) as [dd [He [Hne [Hd [Hv Hh]]]]].
    exists true, dd. rewrite He. repeat split; auto. lia.
  - destruct (digits_of_nonneg z ltac:(lia)) as [dd [He [Hne [Hd [Hv Hh]]]]].
    exists false, dd. rewrite He. repeat split; auto.
Qed.

Lemma num_stop_cases rest :
  num_stop rest = true ->
  rest = [] \/ exists r, rest = 44 :: r \/ rest = 93 :: r \/ rest = 125 :: r.
Proof.
  destruct rest as [| c r]; [left; reflexivity |]. simpl. intros H. right. exists r.
  destruct (Z.eqb_spec c 44); [left; subst; reflexivity |].
  destruct (Z.eqb_spec c 93); [right; left; subst; reflexivity |].
  destruct (Z.eqb_spec c 125); [right; right; subst; reflexivity | discriminate].
Qed.

Lemma span_stop ds rest :
  Forall (fun d => is_digit d = true) ds -> num_stop rest = true ->
  span_digits (ds ++ rest) = (ds, rest).
Proof.
  intros Hd Hr. induction Hd as [| d ds Hd0 _ IH]; simpl.
  - destruct (num_stop_cases rest Hr) as [-> | [r [-> | [-> | ->]]]]; reflexivity.
  - rewrite Hd0, IH. reflexivity.
Qed.

Lemma scan_int z f rest :
  num_stop rest = true -> scan_once (S f) (int_repr z ++ rest) = Some (PInt z, rest).
Proof.
  intros Hr. destruct (int_repr_digits z) as [neg [dd [He [Hne [Hd [Hh Hz]]]]]].
  rewrite He. destruct dd as [| d0 ds]; [contradiction |].
  inversion Hd as [| ? ? Hd0 Hds]; subst.
  pose proof (span_stop ds rest Hds Hr) as Hs.
  destruct (is_digit_cases d0 Hd0) as [-> | [-> | [-> | [-> | [-> | [-> | [-> | [-> | [-> | ->]]]]]]]]];
    [specialize (Hh eq_refl); injection Hh as ->; clear Hs |..];
    destruct neg; destruct (num_stop_cases rest Hr) as [-> | [r [-> | [-> | ->]]]];
    simpl; unfold match_number; simpl; try rewrite Hs; reflexivity.
Qed.


Lemma str_eqb_true a b : str_eqb a b = true -> a = b.
Proof.
  revert b. induction a as [| x a IH]; intros [| y b]; simpl; try discriminate; [reflexivity |].
  intros H. apply andb_prop in H as [H1 H2]. apply Z.eqb_eq in H1. subst. f_equal. apply IH, H2.
Qed.

Lemma str_eqb_refl a : str_eqb a a = true.
Proof. induction a as [| x a IH]; simpl; [reflexivity |]. rewrite Z.eqb_refl. exact IH. Qed.

Lemma keys_distinct_nodup d : keys_distinct d = true -> NoDup (map fst d).
Proof.
  induction d as [| [k v] r IH]; simpl; intros H; [constructor |].
  apply andb_prop in H as [H1 H2]. constructor; [| apply IH, H2].
  intros Hin. apply in_map_iff in Hin as [[k' v'] [Hk Hin]]. simpl in Hk. subst k'.
  apply negb_true_iff in H1. apply not_true_iff_false in H1. apply H1.
  apply existsb_exists. exists (k, v'). split; [exact Hin | apply str_eqb_refl].
Qed.

Lemma setitem_new acc k v : ~ In k (map fst acc) -> dict_setitem acc k v = acc ++ [(k, v)].
Proof.
  induction acc as [| [k' v'] r IH]; simpl; intros Hn; [reflexivity |].
  destruct (str_eqb k k') eqn:E.
  - apply str_eqb_true in E. subst. exfalso. apply Hn. left. reflexivity.
  - rewrite IH; [reflexivity |]. intros Hin. apply Hn. right. exact Hin.
Qed.

Lemma dumps_head v : wire_safe v = true ->
  exists c t, json_dumps v = c :: t /\ In c dumps_heads.
Proof.
  destruct v as [| b | z | t | s | l | d]; simpl; intros Hw; try discriminate.
  - eexists; eexists; split; [reflexivity | simpl; tauto].
  - destruct b; (eexists; eexists; split; [reflexivity | simpl; tauto]).
  - destruct (int_repr_digits z) as [neg [dd [Hz [Hne [Hd _]]]]].
    rewrite Hz. destruct neg.
    + eexists; eexists; split; [reflexivity | simpl; tauto].
    + destruct dd as [| d0 ds]; [congruence |]. simpl. exists d0, ds. split; [reflexivity |].
      inversion Hd as [| ? ? Hd0 _]; subst.
      destruct (is_digit_cases d0 Hd0) as [-> | [-> | [-> | [-> | [-> | [-> | [-> | [-> | [-> | ->]]]]]]]]];
        simpl; tauto.
  - eexists; eexists; split; [reflexivity | simpl; tauto].
  - eexists; eexists; split; [reflexivity | simpl; tauto].
  - eexists; eexists; split; [reflexivity | simpl; tauto].
Qed.

Lemma skip_ws_heads c t : In c dumps_heads -> skip_ws (c :: t) = c :: t.
Proof.
  intros Hin. unfold dumps_heads in Hin.
  repeat (destruct Hin as [<- | Hin]; [reflexivity |]). contradiction.
Qed.

Lemma skip_ws_dumps v T : wire_safe v = true -> skip_ws (json_dumps v ++ T) = json_dumps v ++ T.
Proof.
  intros Hw. destruct (dumps_head v Hw) as [c [t [Hc Hin]]]. rewrite Hc. apply skip_ws_heads, Hin.
Qed.

Lemma join_map_cons2 {A} (f : A -> pystr) sep x y ys :
  join sep (map f (x :: y :: ys)) = f x ++ sep ++ join sep (map f (y :: ys)).
Proof. reflexivity. Qed.

Lemma join_map_prefix {A} (f : A -> pystr) sep x xs :
  exists Y, join sep (map f (x :: xs)) = f x ++ Y.
Proof.
  destruct xs as [| y ys].
  - exists []. simpl. rewrite app_nil_r. reflexivity.
  - eexists. apply join_map_cons2.
Qed.

Lemma join_map_prefix_z {A} (f : A -> list Z) sep x xs :
  exists Y, join sep (map f (x :: xs)) = f x ++ Y.
Proof. apply join_map_prefix. Qed.

Lemma skip_ws_join_dumps xs T : forallb wire_safe xs = true -> xs <> [] ->
  skip_ws (join comma_sep (map json_dumps xs) ++ T) = join comma_sep (map json_dumps xs) ++ T.
Proof.
  intros Hw Hne. destruct xs as [| x xs]; [congruence |].
  simpl in Hw. apply andb_prop in Hw as [Hx _].
  destruct (join_map_prefix json_dumps comma_sep x xs) as [Y HY]. rewrite HY, <- app_assoc.
  apply skip_ws_dumps, Hx.
Qed.

Lemma comma_sep_eq : comma_sep = [44; 32].
Proof. reflexivity. Qed.

Lemma colon_sep_eq : colon_sep = [58; 32].
Proof. reflexivity. Qed.

Lemma array_items_step f s acc :
  array_items (S f) s acc =
  match scan_once f s with
  | None => None
  | Some (v, r1) =>
      match skip_ws r1 with
      | 93 :: r2 => Some (PList (rev (v :: acc)), r2)
      | 44 :: r2 => array_items f (skip_ws r2) (v :: acc)
      | _ => None
      end
  end.
Proof. reflexivity. Qed.

Lemma skip_ws_comma T : skip_ws (comma_sep ++ T) = 44 :: 32 :: T.
Proof. reflexivity. Qed.

Lemma skip_ws_space T : skip_ws (32 :: T) = skip_ws T.
Proof. reflexivity. Qed.

Lemma items_ok (xs : list pyval) :
  Forall (fun v => wire_safe v = true -> forall fuel rest,
            (List.length (json_dumps v) <= fuel)%nat -> num_stop rest = true ->
            scan_once fuel (json_dumps v ++ rest) = Some (v, rest)) xs ->
  forallb wire_safe xs = true -> xs <> [] ->
  forall F acc rest, (List.length (join comma_sep (map json_dumps xs)) < F)%nat ->
  array_items F (join comma_sep (map json_dumps xs) ++ 93 :: rest) acc
  = Some (PList (rev acc ++ xs), rest).
Proof.
  induction 1 as [| x xs' Hx Hxs IH]; [congruence |].
  intros Hw _ F acc rest Hl. simpl in Hw. apply andb_prop in Hw as [Hwx Hwxs].
  destruct F as [| f]; [lia |]. rewrite array_items_step.
  destruct xs' as [| y ys].
  - simpl in Hl |- *. rewrite (Hx Hwx f (93 :: rest)) by (lia || reflexivity).
    reflexivity.
  - rewrite join_map_cons2 in Hl |- *. rewrite !length_app in Hl.
    change (List.length comma_sep) with 2%nat in Hl.
    rewrite <- !app_assoc.
    rewrite (Hx Hwx f) by (lia || reflexivity).
    cbv beta iota. rewrite skip_ws_comma. cbv beta iota.
    rewrite skip_ws_space, skip_ws_join_dumps by (exact Hwxs || discriminate).
    rewrite (IH Hwxs ltac:(discriminate) f (x :: acc) rest) by lia.
    simpl. rewrite <- app_assoc. reflexivity.
Qed.

Lemma object_members_step f r acc :
  object_members (S f) (34 :: r) acc =
  match scanstring r [] with
  | None => None
  | Some (key, r1) =>
      match skip_ws r1 with
      | 58 :: r2 =>
          match scan_once f (skip_ws r2) with
          | None => None
          | Some (v, r3) =>
              let acc' := dict_setitem acc key v in
              match skip_ws r3 with
              | 125 :: r4 => Some (PDict acc', r4)
              | 44 :: r4 => object_members f (skip_ws r4) acc'
              | _ => None
              end
          end
      | _ => None
      end
  end.
Proof. reflexivity. Qed.

Lemma skip_ws_colon T : skip_ws (58 :: T) = 58 :: T.
Proof. reflexivity. Qed.

Lemma skip_ws_close T : skip_ws (125 :: T) = 125 :: T.
Proof. reflexivity. Qed.

Lemma entry_text k v T :
  encode_basestring_ascii k ++ colon_sep ++ json_dumps v ++ T
  = 34 :: flat_map escape_char k ++ 34 :: 58 :: 32 :: json_dumps v ++ T.
Proof. unfold encode_basestring_ascii. cbn [app]. rewrite <- app_assoc. reflexivity. Qed.

Lemma skip_ws_join_head {A} (f : A -> pystr) sep x xs t T :
  f x = 34 :: t ->
  skip_ws (join sep (map f (x :: xs)) ++ T) = join sep (map f (x :: xs)) ++ T.
Proof.
  intros Hx. destruct (join_map_prefix f sep x xs) as [Y HY]. rewrite HY, Hx. reflexivity.
Qed.

Lemma skip_ws_join_entries (e : pystr * pyval) es T :
  skip_ws (join comma_sep
    (map (fun kv => encode_basestring_ascii (fst kv) ++ colon_sep ++ json_dumps (snd kv)) (e :: es)) ++ T)
  = join comma_sep
    (map (fun kv => encode_basestring_ascii (fst kv) ++ colon_sep ++ json_dumps (snd kv)) (e :: es)) ++ T.
Proof.
  eapply skip_ws_join_head. unfold encode_basestring_ascii. reflexivity.
Qed.

Lemma members_ok (d : pydict) :
  Forall (fun kv => wire_safe (snd kv) = true -> forall fuel rest,
            (List.length (json_dumps (snd kv)) <= fuel)%nat -> num_stop rest = true ->
            scan_once fuel (json_dumps (snd kv) ++ rest) = Some (snd kv, rest)) d ->
  forallb (fun kv => forallb scalar (fst kv) && wire_safe (snd kv)) d = true -> d <> [] ->
  forall F acc rest, NoDup (map fst (acc ++ d)) ->
  (List.length (join comma_sep
     (map (fun kv => encode_basestring_ascii (fst kv) ++ colon_sep ++ json_dumps (snd kv)) d)) < F)%nat ->
  object_members F (join comma_sep
     (map (fun kv => encode_basestring_ascii (fst kv) ++ colon_sep ++ json_dumps (snd kv)) d)
     ++ 125 :: rest) acc
  = Some (PDict (acc ++ d), rest).
Proof.
  induction 1 as [| [k v] d' Hv Hd IH]; [congruence |].
  intros Hw _ F acc rest Hnd Hl. simpl in Hw.
  apply andb_prop in Hw as [Hkv Hwd]. apply andb_prop in Hkv as [Hk Hwv]. cbn [snd] in Hv.
  destruct F as [| f]; [lia |].
  assert (Hnew : ~ In k (map fst acc)).
  { rewrite map_app in Hnd. cbn [map fst] in Hnd. apply NoDup_remove_2 in Hnd.
    intros Hin. apply Hnd. apply in_or_app. left. exact Hin. }
  destruct d' as [| e es].
  - cbn [map join fst snd] in Hl |- *. rewrite !length_app in Hl.
    change (List.length colon_sep) with 2%nat in Hl.
    rewrite <- !app_assoc, entry_text, object_members_step, scan_escaped by exact Hk.
    cbv beta iota. rewrite skip_ws_colon. cbv beta iota.
    rewrite skip_ws_space, skip_ws_dumps by exact Hwv.
    rewrite (Hv Hwv f (125 :: rest)) by (lia || reflexivity).
    cbv beta iota zeta. rewrite skip_ws_close. cbv beta iota.
    cbn [rev app]. rewrite setitem_new by exact Hnew. reflexivity.
  - rewrite join_map_cons2 in Hl |- *. cbn [fst snd] in Hl |- *. rewrite !length_app in Hl.
    change (List.length colon_sep) with 2%nat in Hl.
    change (List.length comma_sep) with 2%nat in Hl.
    rewrite <- !app_assoc, entry_text, object_members_step, scan_escaped by exact Hk.
    cbv beta iota. rewrite skip_ws_colon. cbv beta iota.
    rewrite skip_ws_space, skip_ws_dumps by exact Hwv.
    rewrite (Hv Hwv f) by (lia || reflexivity).
    cbv beta iota zeta. rewrite skip_ws_comma. cbv beta iota.
    rewrite skip_ws_space, skip_ws_join_entries.
    cbn [rev app]. rewrite setitem_new by exact Hnew.
    rewrite (IH Hwd ltac:(discriminate) f (acc ++ [(k, v)]) rest).
    + rewrite <- app_assoc. reflexivity.
    + rewrite <- app_assoc. exact Hnd.
    + unfold pystr in *. lia.
Qed.

Lemma scan_list_start f c t : In c dumps_heads ->
  scan_once (S f) (91 :: c :: t) = array_items f (c :: t) [].
Proof.
  intros Hin. unfold dumps_heads in Hin.
  repeat (destruct Hin as [<- | Hin]; [reflexivity |]). contradiction.
Qed.

Lemma scan_dict_start f t :
  scan_once (S f) (123 :: 34 :: t) = object_members f (34 :: t) [].
Proof. reflexivity. Qed.

Lemma scan_str_start f r :
  scan_once (S f) (34 :: r) =
  match scanstring r [] with Some (str, r') => Some (PStr str, r') | None => None end.
Proof. reflexivity. Qed.

Lemma scan_dict_entries f (e : pystr * pyval) es T :
  scan_once (S f) (123 :: join comma_sep
    (map (fun kv => encode_basestring_ascii (fst kv) ++ colon_sep ++ json_dumps (snd kv)) (e :: es)) ++ T)
  = object_members f (join comma_sep
    (map (fun kv => encode_basestring_ascii (fst kv) ++ colon_sep ++ json_dumps (snd kv)) (e :: es)) ++ T) [].
Proof.
  destruct (join_map_prefix_z
    (fun kv => encode_basestring_ascii (fst kv) ++ colon_sep ++ json_dumps (snd kv)) comma_sep e es)
    as [Y HY].
  rewrite HY. unfold encode_basestring_ascii. reflexivity.
Qed.

(** The scanner reads back the text [json.dumps] writes, given enough
    fuel and a rest that ends the value. *)
Lemma scan_dumps v : wire_safe v = true -> forall fuel rest,
  (List.length (json_dumps v) <= fuel)%nat -> num_stop rest = true ->
  scan_once fuel (json_dumps v ++ rest) = Some (v, rest).
Proof.
  induction v as [| b | z | t | s | l IH | d IH] using pyval_nested_ind;
    intros Hw fuel rest Hl Hr.
  - destruct fuel as [| f]; [simpl in Hl; lia |].
    destruct (num_stop_cases rest Hr) as [-> | [r [-> | [-> | ->]]]]; reflexivity.
  - destruct fuel as [| f]; [destruct b; simpl in Hl; lia |].
    destruct b; destruct (num_stop_cases rest Hr) as [-> | [r [-> | [-> | ->]]]]; reflexivity.
  - destruct fuel as [| f].
    + destruct (int_repr_digits z) as [neg [dd [Hz [Hne _]]]]. simpl in Hl. rewrite Hz in Hl.
      destruct neg, dd; simpl in Hl; try lia. congruence.
    + apply scan_int, Hr.
  - discriminate.
  - destruct fuel as [| f]; [simpl in Hl; lia |]. simpl in Hw.
    change (json_dumps (PStr s) ++ rest) with ((34 :: flat_map escape_char s ++ [34]) ++ rest).
    cbn [app]. rewrite <- app_assoc. cbn [app].
    rewrite scan_str_start, scan_escaped by exact Hw. reflexivity.
  - destruct fuel as [| f]; [simpl in Hl; lia |]. simpl in Hw.
    destruct l as [| x xs].
    + destruct (num_stop_cases rest Hr) as [-> | [r [-> | [-> | ->]]]]; reflexivity.
    + assert (Hx : wire_safe x = true) by (simpl in Hw; apply andb_prop in Hw; apply Hw).
      destruct (dumps_head x Hx) as [c [t [Hc Hin]]].
      destruct (join_map_prefix json_dumps comma_sep x xs) as [Y HY].
      rewrite Hc in HY. cbn [app] in HY.
      change (json_dumps (PList (x :: xs))) with
        ([91] ++ join comma_sep (map json_dumps (x :: xs)) ++ [93]) in Hl |- *.
      rewrite !length_app in Hl. simpl (List.length [91]) in Hl. simpl (List.length [93]) in Hl.
      rewrite <- !app_assoc. cbn [app]. rewrite HY. cbn [app].
      rewrite scan_list_start by exact Hin.
      change (c :: (t ++ Y) ++ 93 :: rest) with ((c :: t ++ Y) ++ 93 :: rest).
      rewrite <- HY. rewrite (items_ok (x :: xs) IH Hw ltac:(discriminate)) by lia.
      reflexivity.
  - destruct fuel as [| f]; [simpl in Hl; lia |]. simpl in Hw.
    apply andb_prop in Hw as [Hkd Hw].
    destruct d as [| e es].
    + destruct (num_stop_cases rest Hr) as [-> | [r [-> | [-> | ->]]]]; reflexivity.
    + change (json_dumps (PDict (e :: es))) with
        ([123] ++ join comma_sep
          (map (fun kv => encode_basestring_ascii (fst kv) ++ colon_sep ++ json_dumps (snd kv))
             (e :: es)) ++ [125]) in Hl |- *.
      rewrite !length_app in Hl. simpl (List.length [123]) in Hl. simpl (List.length [125]) in Hl.
      rewrite <- !app_assoc. cbn [app]. rewrite scan_dict_entries.
      rewrite (members_ok (e :: es) IH Hw ltac:(discriminate) f [] rest) by
        (exact (keys_distinct_nodup _ Hkd) || lia).
      reflexivity.
Qed.

(** [json.loads(json.dumps(v)) == v] for the values [wire_safe] admits. *)
Lemma json_round_trip v : wire_safe v = true -> json_loads (json_dumps v) = Some v.
Proof.
  intros Hw. unfold json_loads. cbv zeta.
  pose proof (skip_ws_dumps v [] Hw) as E. rewrite app_nil_r in E. rewrite E.
  pose proof (scan_dumps v Hw (S (2 * List.length (json_dumps v))) [] ltac:(lia) eq_refl) as Hs.
  rewrite app_nil_r in Hs. rewrite Hs. reflexivity.
Qed.

(** The body of each request that creates or updates a card or a
    template, decoded by [json.loads] on the server side, is the dict of
    keyword arguments passed to the operation, when that dict is not empty
    and holds only values [json.dumps] writes as they are read back: no
    float, strings of Unicode scalar values, dicts without repeated keys. *)
Theorem body_decodes :
  forall v server cards console card_id template_id kwargs,
  kwargs <> [] -> wire_safe (PDict kwargs) = true ->
  Forall (fun rq => json_loads (body_text rq) = Some (PDict kwargs))
    (fst (run server (AccessCards_issue v cards kwargs)))
  /\ Forall (fun rq => json_loads (body_text rq) = Some (PDict kwargs))
    (fst (run server (AccessCards_update v cards card_id kwargs)))
  /\ Forall (fun rq => json_loads (body_text rq) = Some (PDict kwargs))
    (fst (run server (Console_create_template v console kwargs)))
  /\ Forall (fun rq => json_loads (body_text rq) = Some (PDict kwargs))
    (fst (run server (Console_update_template v console template_id kwargs))).
Proof.
  intros v server cards console card_id template_id kwargs Hne Hw.
  destruct kwargs as [| kv kw]; [congruence |].
  repeat split;
    unfold AccessCards_issue, AccessCards_update, Console_create_template,
      Console_update_template, _post, _put;
    (eapply Forall_impl; [| apply op_fields;
       intros; first [apply AccessCard_init_settled | apply Template_init_settled]]);
    intros rq [_ [Hb _]]; unfold body_text, wire_body; rewrite Hb;
    cbn [json_arg option_map]; apply json_round_trip, Hw.
Qed.

(** Witness: Jane Doe's card issued through [acct_1]. *)
Lemma body_decodes_witness :
  jane <> [] /\ wire_safe (PDict jane) = true /\
  Forall (fun rq => json_loads (body_text rq) = Some (PDict jane))
    (fst (run (answer 200 (pyj "{'id': 'c1'}")) (AccessCards_issue (py "1.0") (access_cards acct_1) jane))).
Proof.
  split; [discriminate |]. split; [reflexivity |].
  apply (proj1 (body_decodes (py "1.0") (answer 200 (pyj "{'id': 'c1'}")) (access_cards acct_1)
                  (console acct_1) [] [] jane ltac:(discriminate) ltac:(reflexivity))).
Defined.
